(** * Trendit: the temporal collection and filtering engine

    A shallow embedding of [search_subreddit_posts_by_keyword_and_date]
    (date_filter_fixes/date_filter_patch.py, [IMPROVED_SEARCH_METHOD]) and of
    the helpers it calls, with the properties the specification states about
    them.

    Conventions of the embedding:
    - a post is a Python dict, here a finite map from keys to dynamically
      typed values ([pyval]);
    - a call that can raise returns [res], either [Ok v] or [Raise e];
    - strings are sequences of 8-bit code points (Latin-1), on which
      [str.lower] acts character by character;
    - a [datetime] is an absolute instant, counted in microseconds;
    - the calls to [logger] are left out: they change no result. *)

From Stdlib Require Import ZArith Ascii String DecimalString.
From stdpp Require Import gmap strings list sorting.

Local Open Scope Z_scope.

(** ** Python values and exceptions *)

(** The values the posts of this repository hold: [None], integers (scores and
    counts), strings (identifiers and text) and [datetime]s. *)
Inductive pyval : Type :=
  | VNone
  | VInt (z : Z)
  | VStr (s : string)
  | VDatetime (t : Z).

Inductive exn : Type :=
  | TypeError
  | AttributeError
  | InvalidArgument
  | RemoteFailure (what : string).

Inductive res (A : Type) : Type :=
  | Ok (a : A)
  | Raise (e : exn).

Arguments Ok {A} a.
Arguments Raise {A} e.

Definition bind {A B : Type} (m : res A) (k : A -> res B) : res B :=
  match m with
  | Ok a => k a
  | Raise e => Raise e
  end.

Notation "'do' x <- m ; k" := (bind m (fun x => k))
  (at level 10, x name, m at level 100, k at level 200).

#[global] Instance pyval_eq_dec : EqDecision pyval.
Proof. solve_decision. Defined.

#[global] Instance exn_eq_dec : EqDecision exn.
Proof. solve_decision. Defined.

(** A post as the collector handles it: a dict with string keys. *)
Abbreviation post := (gmap string pyval).

(** [d.get(k, dflt)] *)
Definition dict_get (d : post) (k : string) (dflt : pyval) : pyval :=
  default dflt (d !! k).

(** Truth value of an object, as [or] and [if] test it. *)
Definition truthy (v : pyval) : bool :=
  match v with
  | VNone => false
  | VInt z => negb (z =? 0)
  | VStr s => negb (String.eqb s EmptyString)
  | VDatetime _ => true
  end.

(** [v or d] *)
Definition py_or (v d : pyval) : pyval := if truthy v then v else d.

(** ** Strings *)

Module Str.

Definition is_upper (n : nat) : bool :=
  ((65 <=? n) && (n <=? 90))%nat
  || ((192 <=? n) && (n <=? 222) && negb (n =? 215))%nat.

Definition lower_char (c : ascii) : ascii :=
  let n := nat_of_ascii c in
  if is_upper n then ascii_of_nat (n + 32) else c.

(** [s.lower()] *)
Fixpoint lower (s : string) : string :=
  match s with
  | EmptyString => EmptyString
  | String c s' => String (lower_char c) (lower s')
  end.

(** [k in t] on two strings: [k] occurs in [t] as a contiguous run. *)
Fixpoint contains (k t : string) : bool :=
  String.prefix k t
  || match t with
     | EmptyString => false
     | String _ t' => contains k t'
     end.

(** The declarative reading of "occurs as a substring". *)
Definition occurs (k t : string) : Prop :=
  exists pre suf : string, t = String.append pre (String.append k suf).

(** "Occurs ignoring case": some run of [t] equals [k] up to letter case. *)
Definition occurs_nocase (k t : string) : Prop :=
  exists s : string, occurs s t /\ lower s = lower k.

End Str.

(** [v.lower()]: only [str] has the method. *)
Definition str_lower (v : pyval) : res string :=
  match v with
  | VStr s => Ok (Str.lower s)
  | _ => Raise AttributeError
  end.

(** ** Keyword filtering (date_filter_patch.py, lines 73-82) *)

(** The text the keywords are searched in: [f"{title_text} {content_text}"]. *)
Definition combined_text (p : post) : res string :=
  do title_text <- str_lower (dict_get p "title" (VStr "")) ;
  do content_text <- str_lower (py_or (dict_get p "selftext" (VStr "")) (VStr "")) ;
  Ok (String.append title_text (String.append " " content_text)).

(** [any(keyword.lower() in combined_text for keyword in keywords)] *)
Definition any_keyword (keywords : list string) (text : string) : bool :=
  existsb (fun keyword => Str.contains (Str.lower keyword) text) keywords.

(** The test one post undergoes in the loop. *)
Definition keyword_match (p : post) (keywords : list string) : res bool :=
  do text <- combined_text p ;
  Ok (any_keyword keywords text).

(** The loop itself: the posts that pass, in their order. *)
Fixpoint keyword_filter (filtered_posts : list post) (keywords : list string)
  : res (list post) :=
  match filtered_posts with
  | [] => Ok []
  | p :: rest =>
      do hit <- keyword_match p keywords ;
      do kept <- keyword_filter rest keywords ;
      Ok (if hit then p :: kept else kept)
  end.

(** ** Ranking (date_filter_patch.py, lines 84-93) *)

(** [a < b] between two keys; values of different types, and [None], do not
    compare. *)
Definition py_lt (a b : pyval) : res bool :=
  match a, b with
  | VInt x, VInt y => Ok (x <? y)
  | VStr x, VStr y => Ok (String.ltb x y)
  | VDatetime x, VDatetime y => Ok (x <? y)
  | _, _ => Raise TypeError
  end.

(** [l.sort(key=key, reverse=True)]: a stable comparison sort that only asks
    [<] of the keys and fails when a comparison fails; with [reverse=True] the
    greater key comes first and items with equal keys keep their order. The
    sort is written here as a stable insertion sort. *)
Fixpoint insert_reverse (key : post -> pyval) (x : post) (l : list post)
  : res (list post) :=
  match l with
  | [] => Ok [x]
  | y :: l' =>
      do below <- py_lt (key x) (key y) ;
      if below : bool
      then do placed <- insert_reverse key x l' ; Ok (y :: placed)
      else Ok (x :: y :: l')
  end.

Fixpoint sort_reverse (key : post -> pyval) (l : list post) : res (list post) :=
  match l with
  | [] => Ok []
  | x :: l' => do sorted <- sort_reverse key l' ; insert_reverse key x sorted
  end.

(** The three [lambda x: x.get(field, 0)] of the [if]/[elif] chain; any other
    [sort_by] leaves the list as it is. *)
Definition sort_key (sort_by : string) : option (post -> pyval) :=
  if String.eqb sort_by "score" then Some (fun x => dict_get x "score" (VInt 0))
  else if String.eqb sort_by "comments" then Some (fun x => dict_get x "num_comments" (VInt 0))
  else if String.eqb sort_by "date" then Some (fun x => dict_get x "created_utc" (VInt 0))
  else None.

(** [l[:limit]]; a negative [limit] counts from the end. *)
Definition slice_to {A : Type} (limit : Z) (l : list A) : list A :=
  if 0 <=? limit then take (Z.to_nat limit) l
  else take (length l - Z.to_nat (- limit))%nat l.

(** Sort by the specified criteria, then limit the results. *)
Definition rank (keyword_filtered_posts : list post) (sort_by : string) (limit : Z)
  : res (list post) :=
  do sorted <- match sort_key sort_by with
               | Some key => sort_reverse key keyword_filtered_posts
               | None => Ok keyword_filtered_posts
               end ;
  Ok (slice_to limit sorted).

(** The criteria the specification names, and the [sort_by] each is. *)
Inductive criterion : Type := SCORE | COMMENT_COUNT | RECENCY.

Definition sort_by_of (c : criterion) : string :=
  match c with
  | SCORE => "score"
  | COMMENT_COUNT => "comments"
  | RECENCY => "date"
  end.

Definition field_of (c : criterion) : string :=
  match c with
  | SCORE => "score"
  | COMMENT_COUNT => "num_comments"
  | RECENCY => "created_utc"
  end.

Definition criterion_key (c : criterion) (x : post) : pyval :=
  dict_get x (field_of c) (VInt 0).

(** The number a key stands for: the integer itself, or the instant of a
    [datetime]. *)
Definition key_value (v : pyval) : Z :=
  match v with
  | VInt z => z
  | VDatetime t => t
  | _ => 0
  end.

Definition rank_value (c : criterion) (x : post) : Z := key_value (criterion_key c x).

(** The pure counterpart of [sort_reverse] on integer-valued keys. *)
Fixpoint insert_desc {A : Type} (f : A -> Z) (x : A) (l : list A) : list A :=
  match l with
  | [] => [x]
  | y :: l' => if f x <? f y then y :: insert_desc f x l' else x :: y :: l'
  end.

Definition sort_desc {A : Type} (f : A -> Z) (l : list A) : list A :=
  foldr (insert_desc f) [] l.

(** ** The search (date_filter_patch.py, lines 17-100) *)

(** The windows the remote source accepts: ["day"], ["week"], ["month"],
    ["year"], ["all"]. *)
Inductive time_filter : Type := day | week | month | year | all.

#[global] Instance time_filter_eq_dec : EqDecision time_filter.
Proof. solve_decision. Defined.

#[global] Instance res_eq_dec {A : Type} `{EqDecision A} : EqDecision (res A).
Proof. solve_decision. Defined.

(** The keyword arguments of [reddit.search_posts]. *)
Record request : Type := Request {
  req_query : string;
  req_subreddit_name : string;
  req_sort : string;
  req_time_filter : time_filter;
  req_limit : Z
}.

(** [sep.join(l)] *)
Fixpoint join (sep : string) (l : list string) : string :=
  match l with
  | [] => EmptyString
  | [s] => s
  | s :: rest => String.append s (String.append sep (join sep rest))
  end.

Definition microseconds_per_day : Z := 86400000000.

(** [(date_to - date_from).days]: a [timedelta] counts whole days, rounding
    towards minus infinity. *)
Definition days_between (date_from date_to : Z) : Z :=
  (date_to - date_from) / microseconds_per_day.

(** [except Exception as e: logger.error(...); raise] *)
Definition log_and_reraise {A : Type} (body : res A) : res A :=
  match body with
  | Ok v => Ok v
  | Raise e => Raise e
  end.

Section Search.

(** The two helpers imported from services/date_filter_fix.py, and the
    remote source behind [self.reddit_client]. *)
Variable select_optimal_time_filter : Z -> res time_filter.
Variable apply_improved_date_filtering : list post -> Z -> bool -> res (list post).
Variable search_posts : request -> res (list post).

(** What happens once the remote source has answered (lines 60-96). *)
Definition after_fetch (all_posts : list post) (keywords : list string)
    (days_diff limit : Z) (sort_by : string) : res (list post) :=
  match all_posts with
  | [] => Ok []
  | _ =>
      do filtered_posts <- apply_improved_date_filtering all_posts days_diff true ;
      do keyword_filtered_posts <- keyword_filter filtered_posts keywords ;
      rank keyword_filtered_posts sort_by limit
  end.

(** The method: its outcome, and the requests it sent to the remote source,
    oldest first. *)
Definition search_subreddit_posts_by_keyword_and_date
    (subreddit : string) (keywords : list string) (date_from date_to : Z)
    (limit : Z) (sort_by : string) : res (list post) * list request :=
  let days_diff := days_between date_from date_to in
  match select_optimal_time_filter days_diff with
  | Raise e => (log_and_reraise (Raise e), [])
  | Ok time_filter =>
      let search_query := join " OR " keywords in
      let sent := Request search_query subreddit "relevance" time_filter
                          (Z.min (limit * 3) 500) in
      (log_and_reraise
         (do all_posts <- search_posts sent ;
          after_fetch all_posts keywords days_diff limit sort_by),
       [sent])
  end.

End Search.

(** ** The helpers of services/date_filter_fix.py *)

(** The table of test_date_filter.py, [test_time_filter_selection]: the
    window expected for a number of days. *)
Definition test_cases : list (Z * time_filter) :=
  [(1, day); (3, week); (7, week); (15, month); (30, month); (60, year); (400, all)].

(** The loop of that test: for each case, whether the selector returns the
    expected window. *)
Definition test_time_filter_selection (select : Z -> res time_filter)
  : list (Z * bool) :=
  map (fun '(days, expected) => (days, bool_decide (select days = Ok expected)))
      test_cases.

(** Modelled from the spec: the body of
    [ImprovedDateFiltering.select_optimal_time_filter] is in
    services/date_filter_fix.py, which is not among the sources. This is the
    threshold table of section 4.1: 0-2 days DAY, 3-13 WEEK, 14-29 MONTH,
    30-364 YEAR, 365 and more ALL, a negative span being rejected with
    [InvalidArgument]. *)
Definition select_optimal_time_filter (days_diff : Z) : res time_filter :=
  if days_diff <? 0 then Raise InvalidArgument
  else if days_diff <=? 2 then Ok day
  else if days_diff <=? 13 then Ok week
  else if days_diff <=? 29 then Ok month
  else if days_diff <=? 364 then Ok year
  else Ok all.

(** [DateSpan]: the instants [from] and [to] of the requested range. *)
Record DateSpan : Type := { span_from : Z; span_to : Z }.

(** [FilterReport]: the counts of one filtering pass. *)
Record FilterReport : Type := {
  total_in : nat;
  excluded_date : nat;
  excluded_keyword : nat;
  excluded_invalid : nat;
  final_count : nat
}.

Inductive verdict : Type := Kept | OutOfRange | InvalidTimestamp.

#[global] Instance verdict_eq_dec : EqDecision verdict.
Proof. solve_decision. Defined.

Section DateRangeFilter.

(** How a stored timestamp is read as an instant; [None] when it cannot be.
    The specification does not fix the accepted representations. *)
Variable parse : pyval -> option Z.

(** The instant of an item: absent key and unparsable value both give
    [None]. *)
Definition item_time (x : post) : option Z :=
  match x !! "created_utc" with
  | Some v => parse v
  | None => None
  end.

(** Modelled from the spec: the inclusion test of section 4.2,
    [span.from - buffer <= item.time <= span.to + buffer], with the buffer
    in the unit of the instants. *)
Definition judge (span : DateSpan) (buffer : Z) (x : post) : verdict :=
  match item_time x with
  | None => InvalidTimestamp
  | Some t =>
      if (span_from span - buffer <=? t) && (t <=? span_to span + buffer)
      then Kept else OutOfRange
  end.

(** Modelled from the spec: one pass of section 4.2 over the items, in
    their order. It returns the items kept and two counters, the items
    excluded for their date and those excluded for an invalid timestamp. *)
Fixpoint filter_pass (span : DateSpan) (buffer : Z) (items : list post)
  : list post * (nat * nat) :=
  match items with
  | [] => ([], (0, 0)%nat)
  | x :: rest =>
      let '(kept, (out_of_range, invalid)) := filter_pass span buffer rest in
      match judge span buffer x with
      | Kept => (x :: kept, (out_of_range, invalid))
      | OutOfRange => (kept, (S out_of_range, invalid))
      | InvalidTimestamp => (kept, (out_of_range, S invalid))
      end
  end.

(** Modelled from the spec: [filter] of section 4.2, the body of
    [apply_improved_date_filtering] (services/date_filter_fix.py, not among
    the sources). The report counts every exclusion by its reason; [debug]
    only says whether the caller surfaces the report. *)
Definition date_range_filter (items : list post) (span : DateSpan)
    (buffer : Z) (debug : bool) : list post * FilterReport :=
  let '(kept, (out_of_range, invalid)) := filter_pass span buffer items in
  (kept,
   {| total_in := length items;
      excluded_date := out_of_range;
      excluded_keyword := 0;
      excluded_invalid := invalid;
      final_count := length kept |}).

(** The items of a batch whose timestamp cannot be read. *)
Definition invalid_items (items : list post) : list post :=
  filter (fun x => item_time x = None) items.

(** The batch without them. *)
Definition valid_items (items : list post) : list post :=
  filter (fun x => item_time x <> None) items.

End DateRangeFilter.

(** A reading of timestamps that accepts [datetime] values only. *)
Definition parse_datetime (v : pyval) : option Z :=
  match v with
  | VDatetime t => Some t
  | _ => None
  end.

Definition microseconds_per_hour : Z := 3600000000.

(** Modelled from the spec: [apply_improved_date_filtering(posts, days, debug)]
    as the search calls it (section 8's scenario): the span of [days] days
    ending at the evaluation instant [now], with the reference buffer of four
    hours. *)
Definition apply_improved_date_filtering (now : Z) (posts : list post)
    (days : Z) (debug : bool) : res (list post) :=
  Ok (fst (date_range_filter parse_datetime posts
             {| span_from := now - days * microseconds_per_day; span_to := now |}
             (4 * microseconds_per_hour) debug)).

(** ** Items as the specification sees them *)

(** The post carries the title [title] and the body [body]; an absent title,
    an absent body and a body of [None] read as the empty string. *)
Definition has_text (p : post) (title body : string) : Prop :=
  match p !! "title" with
  | Some (VStr s) => title = s
  | None => title = ""
  | Some _ => False
  end /\
  match p !! "selftext" with
  | Some (VStr s) => body = s
  | Some VNone | None => body = ""
  | Some _ => False
  end.

(** The keys of a list can be compared with one another: they are all
    integers, or all [datetime]s. *)
Definition uniform_keys (key : post -> pyval) (l : list post) : Prop :=
  Forall (fun x => exists z, key x = VInt z) l \/
  Forall (fun x => exists t, key x = VDatetime t) l.

(** Greater values first. *)
Definition descending {A : Type} (f : A -> Z) (l : list A) : Prop :=
  StronglySorted (fun a b => f b <= f a) l.



(** ** The fixture of test_date_filter.py *)

(** [create_sample_posts], with the clock reading [now]. *)
Definition create_sample_posts (now : Z) : list post :=
  [ {[ "reddit_id" := VStr "post1"; "title" := VStr "Recent post about fastapi";
       "created_utc" := VDatetime (now - 2 * microseconds_per_hour);
       "score" := VInt 100 ]};
    {[ "reddit_id" := VStr "post2"; "title" := VStr "Yesterday post about fastapi";
       "created_utc" := VDatetime (now - 1 * microseconds_per_day);
       "score" := VInt 75 ]};
    {[ "reddit_id" := VStr "post3"; "title" := VStr "Week old post about fastapi";
       "created_utc" := VDatetime (now - 7 * microseconds_per_day);
       "score" := VInt 50 ]};
    {[ "reddit_id" := VStr "post4"; "title" := VStr "Very old post about fastapi";
       "created_utc" := VDatetime (now - 10 * microseconds_per_day);
       "score" := VInt 200 ]};
    {[ "reddit_id" := VStr "post5"; "title" := VStr "Future post about fastapi";
       "created_utc" := VDatetime (now + 1 * microseconds_per_hour);
       "score" := VInt 25 ]} ].

(** The posts of [test_edge_cases]. *)
Definition bad_posts (now : Z) : list post :=
  [ {[ "reddit_id" := VStr "bad1"; "title" := VStr "No date" ]};
    {[ "reddit_id" := VStr "bad2"; "title" := VStr "Bad date";
       "created_utc" := VStr "invalid" ]};
    {[ "reddit_id" := VStr "good1"; "title" := VStr "Good post";
       "created_utc" := VDatetime now ]} ].

Definition sample_now : Z := 1700000000000000.

(** ** The collection diagnostics (date_filter_patch.py, lines 126-147) *)

(** The lines [COLLECTION_DEBUG_CODE] writes to the log. *)
Inductive debug_line : Type :=
  | PostsFound (n : nat)
  | CollectedRange (earliest_post latest_post : Z)
  | DateAnalysisError
  | NoPostsCollected.

(** [post_dates]: the [created_utc] of the posts that hold a [datetime]. *)
Fixpoint post_dates (posts_data : list post) : list Z :=
  match posts_data with
  | [] => []
  | p :: rest =>
      let created_utc := dict_get p "created_utc" VNone in
      match created_utc with
      | VDatetime t => if truthy created_utc then t :: post_dates rest
                       else post_dates rest
      | _ => post_dates rest
      end
  end.

(** [min(l)] and [max(l)] of a list with a first element. *)
Definition list_min (t : Z) (ts : list Z) : Z := foldl Z.min t ts.
Definition list_max (t : Z) (ts : list Z) : Z := foldl Z.max t ts.

Definition collection_debug (posts_data : list post) : list debug_line :=
  match posts_data with
  | [] => [NoPostsCollected]
  | _ =>
      PostsFound (length posts_data)
      :: match post_dates posts_data with
         | [] => []
         | t :: ts => [CollectedRange (list_min t ts) (list_max t ts)]
         end
  end.

(** ** The environment check (backend/test_api.py, lines 137-157) *)

Definition required_vars : list string :=
  ["REDDIT_CLIENT_ID"; "REDDIT_CLIENT_SECRET"].

(** [not os.getenv(var)]: the variable is unset, or set to the empty string. *)
Definition unset (environ : gmap string string) (var : string) : bool :=
  match environ !! var with
  | None => true
  | Some v => String.eqb v ""
  end.

(** The loop that collects [missing_vars]. *)
Fixpoint missing_vars (environ : gmap string string) (vars : list string)
  : list string :=
  match vars with
  | [] => []
  | var :: rest =>
      if unset environ var then var :: missing_vars environ rest
      else missing_vars environ rest
  end.

Definition check_environment (environ : gmap string string) : bool :=
  match missing_vars environ required_vars with
  | [] => true
  | _ => false
  end.

(** ** Authentication (backend/api/auth.py) *)

(** The database session is a value: the two tables, each a list of rows in
    the order the database returns them. [query(...).filter(...).first()] is
    the first row of that order that satisfies the filter, an ORM object is
    its row, found again by its primary key, and every write is committed.
    The hash functions and the JWT codec are libraries: they are parameters. *)
Module Auth.

(** [SubscriptionStatus] (models/models.py is not among the sources): the two
    members auth.py names, and any other. *)
Inductive SubscriptionStatus : Type :=
  | ACTIVE
  | INACTIVE
  | OtherStatus (name : string).

#[global] Instance SubscriptionStatus_eq_dec : EqDecision SubscriptionStatus.
Proof. solve_decision. Defined.

Record User : Type := {
  user_id : Z;
  user_email : string;
  user_username : option string;
  user_password_hash : string;
  user_is_active : bool;
  user_subscription_status : SubscriptionStatus;
  user_created_at : Z
}.

Record APIKey : Type := {
  key_id : Z;
  key_user_id : Z;
  key_hash : string;
  key_name : string;
  key_is_active : bool;
  key_created_at : Z;
  key_expires_at : option Z;
  key_last_used_at : option Z
}.

Record Session : Type := {
  users : list User;
  api_keys : list APIKey
}.

(** What the database fills in when a row is inserted: the primary key and
    the column defaults. *)
Record Inserted : Type := {
  new_id : Z;
  new_created_at : Z;
  new_expires_at : option Z;
  new_last_used_at : option Z
}.

(** How a dependency or an endpoint ends: with its value, with an
    [HTTPException], or with an exception nothing catches. *)
Inductive reply (A : Type) : Type :=
  | Return (a : A)
  | HTTPException (status_code : Z) (detail : string)
  | Uncaught (exception : string).

Arguments Return {A} a.
Arguments HTTPException {A} status_code detail.
Arguments Uncaught {A} exception.

Record UserRegister : Type := {
  reg_email : string;
  reg_password : string;
  reg_username : option string
}.

Record UserLogin : Type := {
  login_email : string;
  login_password : string
}.

(** [subscription_status] is the member whose [value] the response prints. *)
Record UserResponse : Type := {
  resp_id : Z;
  resp_email : string;
  resp_username : option string;
  resp_is_active : bool;
  resp_subscription_status : SubscriptionStatus;
  resp_created_at : Z
}.

Record Token : Type := {
  access_token : string;
  token_type : string
}.

Record APIKeyResponse : Type := {
  created_key_id : Z;
  created_key_name : string;
  created_key : string;
  created_key_created_at : Z;
  created_key_expires_at : option Z
}.

Record APIKeyListResponse : Type := {
  listed_id : Z;
  listed_name : string;
  listed_is_active : bool;
  listed_created_at : Z;
  listed_expires_at : option Z;
  listed_last_used_at : option Z
}.

Definition ACCESS_TOKEN_EXPIRE_MINUTES : Z := 30.

(** [timedelta(minutes=m)], in microseconds. *)
Definition minutes (m : Z) : Z := m * 60000000.

(** [datetime.min] and [datetime.max], 0001-01-01 00:00:00 and 9999-12-31
    23:59:59.999999, in microseconds from 1970-01-01. *)
Definition datetime_min : Z := -62135596800000000.
Definition datetime_max : Z := 253402300799999999.

(** [d + delta] on a [datetime] and a [timedelta]; [None] stands for the
    [OverflowError] of a result outside [datetime.min .. datetime.max]. *)
Definition datetime_add (d delta : Z) : option Z :=
  if (datetime_min <=? d + delta) && (d + delta <=? datetime_max)
  then Some (d + delta) else None.

(** [s.split(sep)[0]] for a separator of one character: what stands before
    its first occurrence, or all of [s]. *)
Fixpoint before (sep : ascii) (s : string) : string :=
  match s with
  | EmptyString => EmptyString
  | String c s' => if Ascii.eqb c sep then EmptyString else String c (before sep s')
  end.

(** [str(n)] for an integer. *)
Definition str_of_int (n : Z) : string :=
  DecimalString.NilZero.string_of_int (Z.to_int n).

(** [db.query(User).filter(User.email == email).first()] *)
Definition user_by_email (db : Session) (email : string) : option User :=
  List.find (fun u => String.eqb (user_email u) email) (users db).

(** [db.query(User).filter(User.id == id).first()] *)
Definition user_by_id (db : Session) (id : Z) : option User :=
  List.find (fun u => user_id u =? id) (users db).

Section Libraries.

(** [hashlib.sha256(s.encode()).hexdigest()] *)
Variable sha256_hex : string -> string.
(** [pwd_context.hash], which draws a salt, and [pwd_context.verify] *)
Variable bcrypt_hash : string -> string -> string.
Variable verify_password : string -> string -> bool.
(** [jwt.encode(_, SECRET_KEY, algorithm=ALGORITHM)] and
    [jwt.decode(_, SECRET_KEY, algorithms=[ALGORITHM])]; [None] stands for a
    [PyJWTError]. *)
Variable jwt_encode : gmap string pyval -> string.
Variable jwt_decode : string -> option (gmap string pyval).
(** [int(s)] on a string; [None] stands for a [ValueError]. *)
Variable int_of_str : string -> option Z.

Definition hash_password (salt password : string) : string :=
  bcrypt_hash salt password.

(** [create_access_token] where the expiry is a [datetime], as it is for the
    delay [login] passes; [utcnow] is the reading of the clock. A
    [timedelta] of zero is false. With the addition that can overflow:
    [create_access_token_reply]. *)
Definition create_access_token (data : gmap string pyval)
    (expires_delta : option Z) (utcnow : Z) : string :=
  let expire :=
    match expires_delta with
    | Some delta => if delta =? 0 then utcnow + minutes 15 else utcnow + delta
    | None => utcnow + minutes 15
    end in
  jwt_encode (<["exp" := VDatetime expire]> data).

(** [create_access_token] for any delay a caller passes: the addition
    [datetime.utcnow() + expires_delta] raises [OverflowError] when the
    expiry would leave the range of [datetime], and nothing catches it. *)
Definition create_access_token_reply (data : gmap string pyval)
    (expires_delta : option Z) (utcnow : Z) : reply string :=
  let expire :=
    match expires_delta with
    | Some delta => if delta =? 0 then datetime_add utcnow (minutes 15)
                    else datetime_add utcnow delta
    | None => datetime_add utcnow (minutes 15)
    end in
  match expire with
  | Some expire => Return (jwt_encode (<["exp" := VDatetime expire]> data))
  | None => Uncaught "OverflowError"
  end.

(** [generate_api_key]; [token] is what [secrets.token_urlsafe(32)] drew. *)
Definition generate_api_key (token : string) : string * string :=
  let raw_key := "tk_" +:+ token in
  (raw_key, sha256_hex raw_key).

(** [int(user_id)] on the value of a claim. *)
Definition py_int (v : pyval) : reply Z :=
  match v with
  | VInt z => Return z
  | VStr s => match int_of_str s with
              | Some z => Return z
              | None => Uncaught "ValueError"
              end
  | _ => Uncaught "TypeError"
  end.

(** [get_current_user]: the user a JWT names. *)
Definition get_current_user (credentials : string) (db : Session) : reply User :=
  match jwt_decode credentials with
  | None => HTTPException 401 "Could not validate credentials"
  | Some payload =>
      match dict_get payload "sub" VNone with
      | VNone => HTTPException 401 "Could not validate credentials"
      | sub =>
          match py_int sub with
          | Return id =>
              match user_by_id db id with
              | None => HTTPException 401 "User not found"
              | Some user => Return user
              end
          | HTTPException status_code detail => HTTPException status_code detail
          | Uncaught exception => Uncaught exception
          end
      end
  end.

(** [api_key.last_used_at = datetime.utcnow(); db.commit()] *)
Definition touch (api_key : APIKey) (utcnow : Z) (db : Session) : Session :=
  {| users := users db;
     api_keys :=
       map (fun k =>
              if key_id k =? key_id api_key
              then {| key_id := key_id k; key_user_id := key_user_id k;
                      key_hash := key_hash k; key_name := key_name k;
                      key_is_active := key_is_active k;
                      key_created_at := key_created_at k;
                      key_expires_at := key_expires_at k;
                      key_last_used_at := Some utcnow |}
              else k)
           (api_keys db) |}.

(** [get_current_user_from_api_key]: the user an API key belongs to, and the
    session as the call leaves it. *)
Definition get_current_user_from_api_key (credentials : string) (utcnow : Z)
    (db : Session) : reply User * Session :=
  if negb (String.prefix "tk_" credentials)
  then (HTTPException 401 "Invalid API key format", db)
  else
    let hashed := sha256_hex credentials in
    match List.find (fun k => String.eqb (key_hash k) hashed && key_is_active k)
                    (api_keys db) with
    | None => (HTTPException 401 "Invalid API key", db)
    | Some api_key =>
        let db' := touch api_key utcnow db in
        match user_by_id db' (key_user_id api_key) with
        | Some user =>
            if user_is_active user then (Return user, db')
            else (HTTPException 401 "User account is inactive", db')
        | None => (HTTPException 401 "User account is inactive", db')
        end
    end.

(** [require_active_subscription], on the user its dependency returned. *)
Definition require_active_subscription (user : User) : reply User :=
  if decide (user_subscription_status user = ACTIVE) then Return user
  else HTTPException 402 "Active subscription required to access this endpoint".

(** The chain of dependencies an endpoint declares with
    [Depends(require_active_subscription)]. *)
Definition subscriber (credentials : string) (utcnow : Z) (db : Session)
  : reply User * Session :=
  match get_current_user_from_api_key credentials utcnow db with
  | (Return user, db') => (require_active_subscription user, db')
  | other => other
  end.

(** [user_data.username or user_data.email.split("@")[0]] *)
Definition username_or_default (user_data : UserRegister) : string :=
  match reg_username user_data with
  | Some name => if String.eqb name "" then before "@" (reg_email user_data) else name
  | None => before "@" (reg_email user_data)
  end.

(** [register]; [salt] is what the password hash drew and [row] what the
    database filled in. *)
Definition register (user_data : UserRegister) (salt : string) (row : Inserted)
    (db : Session) : reply UserResponse * Session :=
  match user_by_email db (reg_email user_data) with
  | Some existing_user => (HTTPException 400 "Email already registered", db)
  | None =>
      let db_user :=
        {| user_id := new_id row;
           user_email := reg_email user_data;
           user_username := Some (username_or_default user_data);
           user_password_hash := hash_password salt (reg_password user_data);
           user_is_active := true;
           user_subscription_status := INACTIVE;
           user_created_at := new_created_at row |} in
      (Return {| resp_id := user_id db_user;
                 resp_email := user_email db_user;
                 resp_username := user_username db_user;
                 resp_is_active := user_is_active db_user;
                 resp_subscription_status := user_subscription_status db_user;
                 resp_created_at := user_created_at db_user |},
       {| users := users db ++ [db_user]; api_keys := api_keys db |})
  end.

(** [login] *)
Definition login (user_credentials : UserLogin) (utcnow : Z) (db : Session)
  : reply Token :=
  match user_by_email db (login_email user_credentials) with
  | None => HTTPException 401 "Incorrect email or password"
  | Some user =>
      if negb (verify_password (login_password user_credentials)
                               (user_password_hash user))
      then HTTPException 401 "Incorrect email or password"
      else if negb (user_is_active user)
      then HTTPException 401 "Account is inactive"
      else
        let access_token_expires := minutes ACCESS_TOKEN_EXPIRE_MINUTES in
        Return {| access_token :=
                    create_access_token {[ "sub" := VStr (str_of_int (user_id user)) ]}
                                        (Some access_token_expires) utcnow;
                  token_type := "bearer" |}
  end.

(** [create_api_key], for the user [get_current_user] returned. *)
Definition create_api_key (name : string) (token : string) (row : Inserted)
    (current_user : User) (db : Session) : APIKeyResponse * Session :=
  let '(raw_key, hashed_key) := generate_api_key token in
  let db_api_key :=
    {| key_id := new_id row;
       key_user_id := user_id current_user;
       key_hash := hashed_key;
       key_name := name;
       key_is_active := true;
       key_created_at := new_created_at row;
       key_expires_at := new_expires_at row;
       key_last_used_at := new_last_used_at row |} in
  ({| created_key_id := key_id db_api_key;
      created_key_name := key_name db_api_key;
      created_key := raw_key;
      created_key_created_at := key_created_at db_api_key;
      created_key_expires_at := key_expires_at db_api_key |},
   {| users := users db; api_keys := api_keys db ++ [db_api_key] |}).

(** [list_api_keys] *)
Definition list_api_keys (current_user : User) (db : Session)
  : list APIKeyListResponse :=
  map (fun key =>
         {| listed_id := key_id key;
            listed_name := key_name key;
            listed_is_active := key_is_active key;
            listed_created_at := key_created_at key;
            listed_expires_at := key_expires_at key;
            listed_last_used_at := key_last_used_at key |})
      (List.filter (fun key => key_user_id key =? user_id current_user)
                   (api_keys db)).

(** [delete_api_key] *)
Definition delete_api_key (key : Z) (current_user : User) (db : Session)
  : reply string * Session :=
  match List.find (fun k => (key_id k =? key)
                            && (key_user_id k =? user_id current_user))
                  (api_keys db) with
  | None => (HTTPException 404 "API key not found", db)
  | Some api_key =>
      (Return "API key deleted successfully",
       {| users := users db;
          api_keys := List.filter (fun k => negb (key_id k =? key_id api_key))
                                  (api_keys db) |})
  end.

End Libraries.

End Auth.

(** A key without its [last_used_at]. *)
Definition forget_last_used (k : Auth.APIKey) : Auth.APIKey :=
  {| Auth.key_id := Auth.key_id k; Auth.key_user_id := Auth.key_user_id k;
     Auth.key_hash := Auth.key_hash k; Auth.key_name := Auth.key_name k;
     Auth.key_is_active := Auth.key_is_active k;
     Auth.key_created_at := Auth.key_created_at k;
     Auth.key_expires_at := Auth.key_expires_at k;
     Auth.key_last_used_at := None |}.

(** The search an API-key lookup runs: an active key with this hash. *)
Definition key_matches (hashed : string) (k : Auth.APIKey) : bool :=
  String.eqb (Auth.key_hash k) hashed && Auth.key_is_active k.

(** ** Stand-ins for the libraries, and a session, to run the model on *)

Definition toy_sha256 (s : string) : string := "sha256:" +:+ s.
Definition toy_bcrypt (salt password : string) : string := "bcrypt:" +:+ password.
Definition toy_verify (password hashed : string) : bool :=
  String.eqb hashed ("bcrypt:" +:+ password).
Definition toy_jwt_encode (payload : gmap string pyval) : string :=
  match payload !! "sub" with
  | Some (VStr sub) => "jwt." +:+ sub
  | _ => "jwt."
  end.
Definition toy_jwt_decode (token : string) : option (gmap string pyval) :=
  if String.prefix "jwt." token
  then Some {[ "sub" := VStr (String.substring 4 (String.length token - 4) token) ]}
  else None.
Definition toy_int_of_str (s : string) : option Z :=
  option_map Z.of_int (DecimalString.NilZero.int_of_string s).

Definition alice : Auth.User :=
  {| Auth.user_id := 1; Auth.user_email := "alice@example.com";
     Auth.user_username := Some "alice";
     Auth.user_password_hash := toy_bcrypt "salt" "wonderland";
     Auth.user_is_active := true;
     Auth.user_subscription_status := Auth.ACTIVE;
     Auth.user_created_at := 0 |}.

Definition bob : Auth.User :=
  {| Auth.user_id := 2; Auth.user_email := "bob@example.com";
     Auth.user_username := Some "bob";
     Auth.user_password_hash := toy_bcrypt "salt" "builder";
     Auth.user_is_active := false;
     Auth.user_subscription_status := Auth.INACTIVE;
     Auth.user_created_at := 0 |}.

Definition alice_key : Auth.APIKey :=
  {| Auth.key_id := 10; Auth.key_user_id := 1;
     Auth.key_hash := toy_sha256 "tk_alice"; Auth.key_name := "laptop";
     Auth.key_is_active := true; Auth.key_created_at := 0;
     Auth.key_expires_at := None; Auth.key_last_used_at := None |}.

Definition bob_key : Auth.APIKey :=
  {| Auth.key_id := 11; Auth.key_user_id := 2;
     Auth.key_hash := toy_sha256 "tk_bob"; Auth.key_name := "server";
     Auth.key_is_active := true; Auth.key_created_at := 0;
     Auth.key_expires_at := None; Auth.key_last_used_at := None |}.

Definition sample_session : Auth.Session :=
  {| Auth.users := [alice; bob]; Auth.api_keys := [alice_key; bob_key] |}.

(** * Properties *)

(** ** Strings *)

Section StringFacts.

Lemma append_nil (b : string) : "" +:+ b = b.
Proof. reflexivity. Qed.

Lemma append_cons (c : ascii) (a b : string) :
  String c a +:+ b = String c (a +:+ b).
Proof. reflexivity. Qed.

Lemma prefix_spec (k t : string) :
  String.prefix k t = true <-> exists suf, t = k +:+ suf.
Proof.
  revert t. induction k as [|a k IH]; intros t.
  - destruct t; simpl; (split; [intros _; eexists; by rewrite append_nil | done]).
  - destruct t as [|b t]; simpl.
    + split; [done | intros [suf Hsuf]; discriminate].
    + destruct (Ascii.ascii_dec a b) as [->|Hne].
      * rewrite IH. split; intros [suf Hsuf]; exists suf;
          rewrite append_cons in *; congruence.
      * split; [done | intros [suf Hsuf]; rewrite append_cons in Hsuf; congruence].
Qed.

Lemma contains_occurs (k t : string) :
  Str.contains k t = true <-> Str.occurs k t.
Proof.
  unfold Str.occurs. induction t as [|c t IH].
  - cbn [Str.contains]. rewrite orb_false_r, prefix_spec. split.
    + intros [suf Hsuf]. by exists EmptyString, suf.
    + intros [[|x pre] [suf Hsuf]]; [by exists suf | discriminate].
  - cbn [Str.contains]. rewrite orb_true_iff, prefix_spec, IH. split.
    + intros [[suf Hsuf] | (pre & suf & Hsuf)].
      * by exists EmptyString, suf.
      * exists (String c pre), suf. by rewrite append_cons, Hsuf.
    + intros [[|x pre] [suf Hsuf]].
      * left. by exists suf.
      * right. exists pre, suf. rewrite append_cons in Hsuf. congruence.
Qed.

Lemma lower_append (a b : string) :
  Str.lower (a +:+ b) = Str.lower a +:+ Str.lower b.
Proof.
  induction a as [|x a IH]; [done |].
  rewrite append_cons. cbn [Str.lower]. by rewrite append_cons, IH.
Qed.

(** A run of the lowered text is the lowering of a run of the text. *)
Lemma lower_split (t a b : string) :
  Str.lower t = a +:+ b ->
  exists a' b', t = a' +:+ b' /\ Str.lower a' = a /\ Str.lower b' = b.
Proof.
  revert t. induction a as [|x a IH]; intros t Ht.
  - by exists EmptyString, t.
  - destruct t as [|c t]; [discriminate |].
    rewrite append_cons in Ht. cbn [Str.lower] in Ht. injection Ht as Hc Ht.
    destruct (IH t Ht) as (a' & b' & -> & Ha & Hb).
    exists (String c a'), b'. cbn [Str.lower]. by rewrite Hc, Ha.
Qed.

(** Searching the lowered keyword in the lowered text is searching the
    keyword in the text without regard to case. *)
Lemma contains_lower_nocase (k t : string) :
  Str.contains (Str.lower k) (Str.lower t) = true <-> Str.occurs_nocase k t.
Proof.
  rewrite contains_occurs. unfold Str.occurs_nocase, Str.occurs. split.
  - intros (pre & suf & Heq).
    destruct (lower_split _ _ _ Heq) as (pre' & rest & -> & _ & Hrest).
    destruct (lower_split _ _ _ Hrest) as (s & suf' & -> & Hs & _).
    exists s. split; [by exists pre', suf' | done].
  - intros (s & (pre & suf & ->) & Hs).
    exists (Str.lower pre), (Str.lower suf).
    by rewrite !lower_append, Hs.
Qed.

End StringFacts.

(** ** The keyword matcher *)

Section KeywordMatcher.

Lemma lower_space : Str.lower " " = " ".
Proof. reflexivity. Qed.

Lemma combined_text_has_text (p : post) (title body : string) :
  has_text p title body ->
  combined_text p = Ok (Str.lower (title +:+ " " +:+ body)).
Proof.
  intros [Ht Hb]. unfold combined_text, dict_get.
  rewrite !lower_append, lower_space.
  destruct (p !! "title") as [[| |s|]|]; try done; subst title;
    destruct (p !! "selftext") as [[| |[|c s']|]|]; try done; by subst body.
Qed.

Lemma any_keyword_spec (keywords : list string) (t : string) :
  any_keyword keywords (Str.lower t) = true <->
  exists k, k ∈ keywords /\ Str.occurs_nocase k t.
Proof.
  unfold any_keyword. rewrite existsb_exists.
  split; intros (k & Hk & Hocc); exists k.
  - rewrite list_elem_of_In, <- contains_lower_nocase. done.
  - rewrite <- list_elem_of_In, contains_lower_nocase. done.
Qed.

Lemma combined_text_raises (p : post) (e : exn) :
  combined_text p = Raise e -> e = AttributeError.
Proof.
  unfold combined_text, str_lower, bind.
  destruct (dict_get p "title" (VStr "")); try congruence;
    destruct (py_or (dict_get p "selftext" (VStr "")) (VStr "")); congruence.
Qed.

Lemma keyword_match_nil (p : post) :
  keyword_match p [] = Ok false \/ keyword_match p [] = Raise AttributeError.
Proof.
  unfold keyword_match.
  destruct (combined_text p) as [text|e] eqn:Htext; simpl; [by left |].
  right. by rewrite (combined_text_raises p e Htext).
Qed.

Lemma keyword_filter_nil (posts : list post) :
  keyword_filter posts [] = Ok [] \/ keyword_filter posts [] = Raise AttributeError.
Proof.
  induction posts as [|p posts IH]; [by left |].
  cbn [keyword_filter].
  destruct (keyword_match_nil p) as [-> | ->]; [| by right].
  destruct IH as [-> | ->]; [by left | by right].
Qed.

End KeywordMatcher.

(** C2, as the code has it: with an empty keyword list the match of an item
    is never true (it is false, or the item's text fields are not text and the
    call raises), so the keyword loop keeps no item at all. *)
Theorem empty_keywords_match_nothing (p : post) (posts : list post) :
  (keyword_match p [] = Ok false \/ keyword_match p [] = Raise AttributeError) /\
  (keyword_filter posts [] = Ok [] \/ keyword_filter posts [] = Raise AttributeError).
Proof. split; [apply keyword_match_nil | apply keyword_filter_nil]. Qed.

(** C2 as stated fails: an item with a title does not match the empty keyword
    list, and the loop drops it. *)
Lemma empty_keywords_drop_item :
  keyword_match {[ "title" := VStr "Recent post about fastapi" ]} [] = Ok false /\
  keyword_filter [ {[ "title" := VStr "Recent post about fastapi" ]} ] [] = Ok [].
Proof. split; vm_compute; reflexivity. Qed.

(** C9, as the code has it: for an item with text fields, a missing body
    read as the empty string, the match is true exactly when some keyword
    occurs, without regard to case, in the title and the body joined by one
    space. *)
Theorem keyword_match_any_nocase (p : post) (title body : string)
    (keywords : list string) :
  has_text p title body ->
  exists b : bool,
    keyword_match p keywords = Ok b /\
    (b = true <->
     exists k, k ∈ keywords /\ Str.occurs_nocase k (title +:+ " " +:+ body)).
Proof.
  intros Htext. unfold keyword_match.
  rewrite (combined_text_has_text p title body Htext). simpl.
  eexists. split; [reflexivity |]. apply any_keyword_spec.
Qed.

Lemma keyword_match_any_nocase_witness :
  has_text {[ "title" := VStr "Fast" ]} "Fast" "" /\
  exists b : bool,
    keyword_match {[ "title" := VStr "Fast" ]} ["API"; "fast"] = Ok b /\
    (b = true <->
     exists k, k ∈ ["API"; "fast"] /\ Str.occurs_nocase k ("Fast" +:+ " " +:+ "")).
Proof.
  assert (Htext : has_text {[ "title" := VStr "Fast" ]} "Fast" "").
  { split; vm_compute; reflexivity. }
  split; [exact Htext |].
  exact (keyword_match_any_nocase _ "Fast" "" ["API"; "fast"] Htext).
Defined.

(** C9 as stated fails: the keyword occurs in the plain concatenation of title
    and body, yet the code, which puts a space between them, finds no match. *)
Lemma keyword_across_title_and_body :
  has_text {[ "title" := VStr "Fast"; "selftext" := VStr "API" ]} "Fast" "API" /\
  (exists k, k ∈ ["fastapi"] /\ Str.occurs_nocase k ("Fast" +:+ "API")) /\
  keyword_match {[ "title" := VStr "Fast"; "selftext" := VStr "API" ]} ["fastapi"]
    = Ok false.
Proof.
  split; [split; vm_compute; reflexivity |].
  split; [| vm_compute; reflexivity].
  exists "fastapi". split; [apply list_elem_of_here |].
  exists "FastAPI". split; [by exists "", "" | reflexivity].
Qed.

(** ** The ranker *)

Section InsertionSort.

Context {A : Type} (f : A -> Z).

Lemma insert_desc_perm (x : A) (l : list A) : insert_desc f x l ≡ₚ x :: l.
Proof.
  induction l as [|y l IH]; simpl; [done |].
  destruct (f x <? f y); [| done].
  rewrite IH. apply Permutation_swap.
Qed.

Lemma sort_desc_perm (l : list A) : sort_desc f l ≡ₚ l.
Proof.
  induction l as [|x l IH]; simpl; [done |].
  by rewrite insert_desc_perm, IH.
Qed.

Lemma insert_desc_sorted (x : A) (l : list A) :
  descending f l -> descending f (insert_desc f x l).
Proof.
  unfold descending. induction 1 as [|y l Hl IH Hy]; simpl.
  - repeat constructor.
  - destruct (f x <? f y) eqn:Hxy.
    + apply Z.ltb_lt in Hxy. constructor; [done |].
      rewrite insert_desc_perm. constructor; [lia | done].
    + apply Z.ltb_ge in Hxy. constructor; [by constructor |].
      constructor; [done |].
      eapply Forall_impl; [exact Hy | simpl; intros; lia].
Qed.

Lemma sort_desc_sorted (l : list A) : descending f (sort_desc f l).
Proof.
  induction l as [|x l IH]; simpl; [constructor |].
  by apply insert_desc_sorted.
Qed.

(** Inserting an item puts it ahead of the items of equal value. *)
Lemma insert_desc_filter (v : Z) (x : A) (l : list A) :
  filter (fun y => f y = v) (insert_desc f x l)
  = filter (fun y => f y = v) (x :: l).
Proof.
  induction l as [|y l IH]; simpl; [done |].
  destruct (f x <? f y) eqn:Hxy; [| done].
  apply Z.ltb_lt in Hxy.
  rewrite (filter_cons _ y), IH, !filter_cons.
  repeat case_decide; done || lia.
Qed.

Lemma sort_desc_stable (v : Z) (l : list A) :
  filter (fun y => f y = v) (sort_desc f l) = filter (fun y => f y = v) l.
Proof.
  induction l as [|x l IH]; simpl; [done |].
  by rewrite insert_desc_filter, !filter_cons, IH.
Qed.

Lemma descending_take (n : nat) (l : list A) :
  descending f l -> descending f (take n l).
Proof.
  unfold descending. intros Hl.
  rewrite <- (take_drop n l) in Hl.
  by apply StronglySorted_app_1_l in Hl.
Qed.

(** What a truncation drops never exceeds what it keeps. *)
Lemma descending_take_drop (n : nat) (l : list A) (x y : A) :
  descending f l -> x ∈ take n l -> y ∈ drop n l -> f y <= f x.
Proof.
  unfold descending. intros Hl Hx Hy.
  rewrite <- (take_drop n l) in Hl.
  by apply (StronglySorted_app_1_elem_of _ _ _ x y) in Hl.
Qed.


Lemma filter_take_prefix (P : A -> Prop) `{!forall x, Decision (P x)}
    (n : nat) (l : list A) :
  filter P (take n l) `prefix_of` filter P l.
Proof.
  rewrite <- (take_drop n l) at 2. rewrite filter_app.
  by apply prefix_app_r.
Qed.

End InsertionSort.

Section Ranker.

Implicit Types (key : post -> pyval) (l items : list post) (c : criterion).

Lemma uniform_keys_cons key x l :
  uniform_keys key (x :: l) -> uniform_keys key l.
Proof.
  intros [H|H]; [left | right]; by apply Forall_cons in H as [_ H].
Qed.

Lemma uniform_keys_perm key l l' :
  l ≡ₚ l' -> uniform_keys key l -> uniform_keys key l'.
Proof. intros Hp [H|H]; [left | right]; by rewrite <- Hp. Qed.

Lemma py_lt_uniform key x y l :
  uniform_keys key (x :: y :: l) ->
  py_lt (key x) (key y) = Ok (key_value (key x) <? key_value (key y)).
Proof.
  intros [H|H];
    apply Forall_cons in H as [[a Ha] H];
    apply Forall_cons in H as [[b Hb] _];
    by rewrite Ha, Hb.
Qed.

Lemma insert_reverse_pure key x l :
  uniform_keys key (x :: l) ->
  insert_reverse key x l = Ok (insert_desc (fun y => key_value (key y)) x l).
Proof.
  induction l as [|y l IH]; intros Hu; [done |].
  cbn [insert_reverse insert_desc].
  rewrite (py_lt_uniform key x y l Hu). cbn [bind].
  destruct (key_value (key x) <? key_value (key y)); [| done].
  rewrite IH; [done |].
  eapply uniform_keys_cons, uniform_keys_perm; [apply Permutation_swap | exact Hu].
Qed.

(** On keys that compare, the sort succeeds and is the insertion sort on
    their values. *)
Lemma sort_reverse_pure key l :
  uniform_keys key l ->
  sort_reverse key l = Ok (sort_desc (fun y => key_value (key y)) l).
Proof.
  induction l as [|x l IH]; intros Hu; [done |].
  cbn [sort_reverse]. rewrite IH by (by eapply uniform_keys_cons).
  cbn [bind]. rewrite insert_reverse_pure; [done |].
  eapply uniform_keys_perm; [| exact Hu].
  constructor. symmetry. apply sort_desc_perm.
Qed.

Lemma sort_key_criterion c : sort_key (sort_by_of c) = Some (criterion_key c).
Proof. by destruct c. Qed.

Lemma rank_uniform items c limit :
  uniform_keys (criterion_key c) items ->
  rank items (sort_by_of c) limit
  = Ok (slice_to limit (sort_desc (rank_value c) items)).
Proof.
  intros Hu. unfold rank.
  by rewrite sort_key_criterion, sort_reverse_pure.
Qed.


End Ranker.

(** C3: on items whose chosen field is comparable (integers for the score and
    the comment count, instants for the date), and for a limit of at least
    zero, [rank] returns the first [limit] items of the whole input sorted
    with greater values first and equal values in arrival order: the result
    has [min limit |items|] items, is itself sorted that way, keeps equal
    values in arrival order, and leaves out no item greater than one it
    keeps. *)
Theorem rank_sorted_stable_truncated (items : list post) (c : criterion)
    (limit : Z) :
  0 <= limit ->
  uniform_keys (criterion_key c) items ->
  exists sorted r : list post,
    sort_reverse (criterion_key c) items = Ok sorted /\
    sorted ≡ₚ items /\
    descending (rank_value c) sorted /\
    (forall v, filter (fun x => rank_value c x = v) sorted
               = filter (fun x => rank_value c x = v) items) /\
    rank items (sort_by_of c) limit = Ok r /\
    r = take (Z.to_nat limit) sorted /\
    length r = Nat.min (Z.to_nat limit) (length items) /\
    descending (rank_value c) r /\
    (forall v, filter (fun x => rank_value c x = v) r
               `prefix_of` filter (fun x => rank_value c x = v) items) /\
    (forall x y, x ∈ r -> y ∈ drop (Z.to_nat limit) sorted ->
                 rank_value c y <= rank_value c x).
Proof.
  intros Hlimit Hu.
  exists (sort_desc (rank_value c) items),
         (take (Z.to_nat limit) (sort_desc (rank_value c) items)).
  pose proof (sort_desc_sorted (rank_value c) items) as Hsorted.
  split; [by apply sort_reverse_pure |].
  split; [apply sort_desc_perm |].
  split; [done |].
  split; [intros v; apply sort_desc_stable |].
  split.
  { rewrite rank_uniform by done. unfold slice_to.
    by destruct (Z.leb_spec 0 limit); [| lia]. }
  split; [done |].
  split; [by rewrite length_take, sort_desc_perm |].
  split; [by apply descending_take |].
  split.
  { intros v. rewrite <- (sort_desc_stable (rank_value c) v items).
    apply filter_take_prefix. }
  intros x y Hx Hy. by eapply descending_take_drop.
Qed.

Lemma rank_sorted_stable_truncated_witness :
  0 <= 2 /\
  uniform_keys (criterion_key SCORE)
    [ {[ "reddit_id" := VStr "a"; "score" := VInt 5 ]};
      {[ "reddit_id" := VStr "b"; "score" := VInt 7 ]};
      {[ "reddit_id" := VStr "c"; "score" := VInt 5 ]} ] /\
  rank [ {[ "reddit_id" := VStr "a"; "score" := VInt 5 ]};
         {[ "reddit_id" := VStr "b"; "score" := VInt 7 ]};
         {[ "reddit_id" := VStr "c"; "score" := VInt 5 ]} ] "score" 2
  = Ok [ {[ "reddit_id" := VStr "b"; "score" := VInt 7 ]};
         {[ "reddit_id" := VStr "a"; "score" := VInt 5 ]} ].
Proof.
  assert (Hu : uniform_keys (criterion_key SCORE)
    [ {[ "reddit_id" := VStr "a"; "score" := VInt 5 ]};
      {[ "reddit_id" := VStr "b"; "score" := VInt 7 ]};
      {[ "reddit_id" := VStr "c"; "score" := VInt 5 ]} ]).
  { left. repeat constructor; eexists; vm_compute; reflexivity. }
  split; [lia |]. split; [exact Hu |].
  destruct (rank_sorted_stable_truncated _ SCORE 2 ltac:(lia) Hu)
    as (sorted & r & Hsorted & _ & _ & _ & Hrank & Hr & _).
  change (sort_by_of SCORE) with "score" in Hrank. rewrite Hrank, Hr.
  vm_compute in Hsorted. injection Hsorted as <-. vm_compute. reflexivity.
Defined.

(** Outside the search, [rank] handed a post without [created_utc] beside a
    dated one raises: the key 0 does not compare with a [datetime]. In the
    search the date filter runs first and such a post does not come this
    far. *)
Remark rank_of_undated_post :
  rank [ {[ "reddit_id" := VStr "post1"; "created_utc" := VDatetime 1700000000000000 ]};
         {[ "reddit_id" := VStr "bad1" ]} ] "date" 10
  = Raise TypeError.
Proof. vm_compute. reflexivity. Qed.

(** ** The time-window selector *)

(** C1: for a span of at least zero days the selector returns DAY up to 2
    days, WEEK from 3 to 13, MONTH from 14 to 29, YEAR from 30 to 364 and ALL
    from 365 on: the window changes exactly at 3, 14, 30 and 365. *)
Theorem select_optimal_time_filter_table (daySpan : Z) :
  0 <= daySpan ->
  (daySpan <= 2 -> select_optimal_time_filter daySpan = Ok day) /\
  (3 <= daySpan <= 13 -> select_optimal_time_filter daySpan = Ok week) /\
  (14 <= daySpan <= 29 -> select_optimal_time_filter daySpan = Ok month) /\
  (30 <= daySpan <= 364 -> select_optimal_time_filter daySpan = Ok year) /\
  (365 <= daySpan -> select_optimal_time_filter daySpan = Ok all).
Proof.
  intros Hpos. unfold select_optimal_time_filter.
  repeat split; intros Hrange;
    repeat match goal with
      | |- context [?a <? ?b] => destruct (Z.ltb_spec a b); try lia
      | |- context [?a <=? ?b] => destruct (Z.leb_spec a b); try lia
      end; reflexivity.
Qed.

Lemma select_optimal_time_filter_table_witness :
  0 <= 30 /\
  select_optimal_time_filter 29 = Ok month /\
  select_optimal_time_filter 30 = Ok year.
Proof.
  split; [lia |]. split.
  - apply (select_optimal_time_filter_table 29); lia.
  - apply (select_optimal_time_filter_table 30); lia.
Defined.

(** The rows [test_time_filter_selection] prints for this table: the row of
    30 days, where the test's list names the month window, is the one it
    marks as differing; the test asserts nothing. *)
Example test_rows_of_the_table :
  test_time_filter_selection select_optimal_time_filter
  = [(1, true); (3, true); (7, true); (15, true); (30, false); (60, true);
     (400, true)].
Proof. vm_compute. reflexivity. Qed.

(** ** The date-range filter *)

Section DateRangeFilterFacts.

Variable parse : pyval -> option Z.

Implicit Types (items : list post) (span : DateSpan) (buffer : Z) (x : post).

Lemma filter_pass_spec span buffer items :
  filter_pass parse span buffer items
  = (filter (fun x => judge parse span buffer x = Kept) items,
     (length (filter (fun x => judge parse span buffer x = OutOfRange) items),
      length (filter (fun x => judge parse span buffer x = InvalidTimestamp) items))).
Proof.
  induction items as [|x items IH]; [done |].
  cbn [filter_pass]. rewrite IH, !filter_cons.
  destruct (judge parse span buffer x); repeat case_decide; done.
Qed.

Lemma date_range_filter_kept items span buffer debug :
  (date_range_filter parse items span buffer debug).1
  = filter (fun x => judge parse span buffer x = Kept) items.
Proof. unfold date_range_filter. by rewrite filter_pass_spec. Qed.

Lemma judge_kept span buffer x :
  judge parse span buffer x = Kept <->
  exists t, item_time parse x = Some t /\
            span_from span - buffer <= t <= span_to span + buffer.
Proof.
  unfold judge. destruct (item_time parse x) as [t|].
  - split.
    + intros Hk. exists t. split; [done |].
      destruct (Z.leb_spec (span_from span - buffer) t); [| done].
      destruct (Z.leb_spec t (span_to span + buffer)); [lia | done].
    + intros (t' & [= <-] & Hlo & Hhi).
      apply Z.leb_le in Hlo, Hhi. by rewrite Hlo, Hhi.
  - split; [done | by intros (t & ? & _)].
Qed.

Lemma judge_invalid span buffer x :
  judge parse span buffer x = InvalidTimestamp <-> item_time parse x = None.
Proof.
  unfold judge. destruct (item_time parse x); [| done].
  by destruct (_ && _).
Qed.

Lemma judge_widen span buffer buffer' x :
  buffer <= buffer' ->
  judge parse span buffer x = Kept -> judge parse span buffer' x = Kept.
Proof.
  rewrite !judge_kept. intros Hle (t & Ht & Hrange).
  exists t. split; [done | lia].
Qed.

Lemma verdicts_partition span buffer items :
  length items
  = (length (filter (fun x => judge parse span buffer x = Kept) items)
     + length (filter (fun x => judge parse span buffer x = OutOfRange) items)
     + length (filter (fun x => judge parse span buffer x = InvalidTimestamp) items))%nat.
Proof.
  induction items as [|x items IH]; [done |].
  rewrite !filter_cons. cbn [length]. rewrite IH.
  destruct (judge parse span buffer x); repeat case_decide; try done;
    cbn [length]; lia.
Qed.

(** Filtering by an implied test keeps a sublist. *)
Lemma filter_sublist_impl (P Q : post -> Prop)
    `{!forall x, Decision (P x), !forall x, Decision (Q x)} items :
  (forall x, P x -> Q x) -> filter P items `sublist_of` filter Q items.
Proof.
  intros HPQ. induction items as [|x items IH]; [done |].
  rewrite !filter_cons. destruct (decide (P x)) as [HP|HP].
  - rewrite decide_True by auto. by apply sublist_skip.
  - destruct (decide (Q x)); [by apply sublist_cons | done].
Qed.

End DateRangeFilterFacts.

(** C4: the pass always returns; an item whose timestamp is absent or cannot
    be read is not among the items kept, it is counted in the [invalid] entry
    of the report, and the items kept are those the pass keeps on the batch
    without the invalid items, every item of the batch being accounted for. *)
Theorem invalid_timestamps_excluded_and_counted (parse : pyval -> option Z)
    (items : list post) (span : DateSpan) (buffer : Z) (debug : bool) :
  exists (kept : list post) (report : FilterReport),
    date_range_filter parse items span buffer debug = (kept, report) /\
    Forall (fun x => is_Some (item_time parse x)) kept /\
    excluded_invalid report = length (invalid_items parse items) /\
    kept = (date_range_filter parse (valid_items parse items) span buffer debug).1 /\
    (total_in report
     = final_count report + excluded_date report + excluded_invalid report)%nat.
Proof.
  unfold date_range_filter. rewrite !filter_pass_spec.
  eexists _, _. split; [reflexivity |]. cbn.
  split; [| split; [| split]].
  - apply Forall_forall. intros x [Hx _]%list_elem_of_filter.
    apply judge_kept in Hx as (t & -> & _). by eexists.
  - unfold invalid_items. f_equal. apply list_filter_iff.
    intros x. apply judge_invalid.
  - unfold valid_items. rewrite list_filter_filter_l; [done |].
    intros x (t & Ht & _)%judge_kept. by rewrite Ht.
  - apply verdicts_partition.
Qed.

(** C7: the items kept with no buffer are kept, in the same order, with any
    buffer above zero; an item of the batch is kept with a buffer exactly when
    its instant [t] satisfies [span.from - buffer <= t <= span.to + buffer]. *)
Theorem wider_buffer_keeps_more (parse : pyval -> option Z)
    (items : list post) (span : DateSpan) (H : Z) (debug : bool) :
  0 < H ->
  (forall x, x ∈ (date_range_filter parse items span 0 debug).1 ->
             x ∈ (date_range_filter parse items span H debug).1) /\
  (date_range_filter parse items span 0 debug).1
    `sublist_of` (date_range_filter parse items span H debug).1 /\
  (forall buffer x,
     x ∈ (date_range_filter parse items span buffer debug).1 <->
     x ∈ items /\
     exists t, item_time parse x = Some t /\
               span_from span - buffer <= t <= span_to span + buffer).
Proof.
  intros HH.
  assert (Hsub : (date_range_filter parse items span 0 debug).1
                 `sublist_of` (date_range_filter parse items span H debug).1).
  { rewrite !date_range_filter_kept. apply filter_sublist_impl.
    intros x. apply judge_widen. lia. }
  split; [| split; [exact Hsub |]].
  - intros x Hx. by eapply elem_of_sublist.
  - intros buffer x.
    rewrite date_range_filter_kept, list_elem_of_filter, judge_kept. tauto.
Qed.

Lemma wider_buffer_keeps_more_witness :
  0 < 4 * microseconds_per_hour /\
  (date_range_filter parse_datetime
     [ {[ "reddit_id" := VStr "post3"; "created_utc" := VDatetime 0 ]};
       {[ "reddit_id" := VStr "bad1" ]};
       {[ "reddit_id" := VStr "post1"; "created_utc" := VDatetime 7200000000 ]} ]
     {| span_from := 3600000000; span_to := 9000000000 |} 0 true).1
    `sublist_of`
  (date_range_filter parse_datetime
     [ {[ "reddit_id" := VStr "post3"; "created_utc" := VDatetime 0 ]};
       {[ "reddit_id" := VStr "bad1" ]};
       {[ "reddit_id" := VStr "post1"; "created_utc" := VDatetime 7200000000 ]} ]
     {| span_from := 3600000000; span_to := 9000000000 |}
     (4 * microseconds_per_hour) true).1.
Proof.
  split; [reflexivity |].
  apply (wider_buffer_keeps_more parse_datetime _ _ (4 * microseconds_per_hour)).
  reflexivity.
Defined.

(** C8: filtering the output of the filter again, with the same span and
    buffer, returns it unchanged, and the output is the input with some items
    left out, the others in their order. *)
Theorem date_range_filter_idempotent (parse : pyval -> option Z)
    (items : list post) (span : DateSpan) (buffer : Z) (debug : bool) :
  (date_range_filter parse
     (date_range_filter parse items span buffer debug).1 span buffer debug).1
  = (date_range_filter parse items span buffer debug).1 /\
  (date_range_filter parse items span buffer debug).1 `sublist_of` items.
Proof.
  rewrite !date_range_filter_kept. split.
  - induction items as [|x items IH]; [done |].
    rewrite filter_cons. case_decide as Hx; [| exact IH].
    rewrite filter_cons, decide_True by done. by rewrite IH.
  - apply sublist_filter.
Qed.

(** ** The search *)

Section SearchFacts.

Variable select : Z -> res time_filter.
Variable date_filtering : list post -> Z -> bool -> res (list post).
Variable search_posts : request -> res (list post).

Variables (subreddit : string) (keywords : list string).
Variables (date_from date_to limit : Z) (sort_by : string).

Local Abbreviation outcome :=
  (search_subreddit_posts_by_keyword_and_date select date_filtering search_posts
     subreddit keywords date_from date_to limit sort_by).

(** The one request of a run whose window was selected. *)
Lemma search_selected (tf : time_filter) :
  select (days_between date_from date_to) = Ok tf ->
  let sent := Request (join " OR " keywords) subreddit "relevance" tf
                      (Z.min (limit * 3) 500) in
  outcome
  = (log_and_reraise
       (do all_posts <- search_posts sent ;
        after_fetch date_filtering all_posts keywords
          (days_between date_from date_to) limit sort_by),
     [sent]).
Proof.
  intros Hsel. unfold search_subreddit_posts_by_keyword_and_date.
  by rewrite Hsel.
Qed.

Lemma search_rejected (e : exn) :
  select (days_between date_from date_to) = Raise e ->
  outcome = (Raise e, []).
Proof.
  intros Hsel. unfold search_subreddit_posts_by_keyword_and_date.
  by rewrite Hsel.
Qed.

End SearchFacts.

(** C5: whatever the helpers are, when the request the search sends is
    answered by an exception, the search ends with that exception, which is
    not the empty success; when it is answered by no item, the search ends
    with the empty list as a success. *)
Theorem remote_failure_is_not_empty_success
    (select : Z -> res time_filter)
    (date_filtering : list post -> Z -> bool -> res (list post))
    (search_posts : request -> res (list post))
    (subreddit : string) (keywords : list string) (date_from date_to limit : Z)
    (sort_by : string) (sent : request) :
  sent ∈ (search_subreddit_posts_by_keyword_and_date
            select date_filtering search_posts
            subreddit keywords date_from date_to limit sort_by).2 ->
  (forall e, search_posts sent = Raise e ->
     (search_subreddit_posts_by_keyword_and_date
        select date_filtering search_posts
        subreddit keywords date_from date_to limit sort_by).1 = Raise e /\
     (search_subreddit_posts_by_keyword_and_date
        select date_filtering search_posts
        subreddit keywords date_from date_to limit sort_by).1 <> Ok []) /\
  (search_posts sent = Ok [] ->
     (search_subreddit_posts_by_keyword_and_date
        select date_filtering search_posts
        subreddit keywords date_from date_to limit sort_by).1 = Ok []).
Proof.
  destruct (select (days_between date_from date_to)) as [tf|e'] eqn:Hsel.
  - rewrite (search_selected _ _ _ _ _ _ _ _ _ tf Hsel). cbn [fst snd].
    intros ->%list_elem_of_singleton. split.
    + intros e ->. by split.
    + by intros ->.
  - rewrite (search_rejected _ _ _ _ _ _ _ _ _ e' Hsel). cbn [snd].
    by intros ?%elem_of_nil.
Qed.

Lemma remote_failure_is_not_empty_success_witness :
  Request "fastapi OR api" "python" "relevance" year 9
  ∈ (search_subreddit_posts_by_keyword_and_date
       select_optimal_time_filter (apply_improved_date_filtering 2592000000000)
       (fun _ => Raise (RemoteFailure "rate-limited"))
       "python" ["fastapi"; "api"] 0 2678400000000 3 "score").2 /\
  (search_subreddit_posts_by_keyword_and_date
     select_optimal_time_filter (apply_improved_date_filtering 2592000000000)
     (fun _ => Raise (RemoteFailure "rate-limited"))
     "python" ["fastapi"; "api"] 0 2678400000000 3 "score").1
  = Raise (RemoteFailure "rate-limited").
Proof.
  assert (Hsent :
    Request "fastapi OR api" "python" "relevance" year 9
    ∈ (search_subreddit_posts_by_keyword_and_date
         select_optimal_time_filter (apply_improved_date_filtering 2592000000000)
         (fun _ => Raise (RemoteFailure "rate-limited"))
         "python" ["fastapi"; "api"] 0 2678400000000 3 "score").2).
  { vm_compute. apply list_elem_of_here. }
  split; [exact Hsent |].
  apply (remote_failure_is_not_empty_success _ _ _ _ _ _ _ _ _ _ Hsent).
  reflexivity.
Defined.

(** C6: every request the search sends asks for [min (limit * 3) 500] items,
    and once the window is selected the search sends exactly one request, for
    the keywords joined by [" OR "], in the given subreddit, by relevance. *)
Theorem remote_request_overfetch
    (select : Z -> res time_filter)
    (date_filtering : list post -> Z -> bool -> res (list post))
    (search_posts : request -> res (list post))
    (subreddit : string) (keywords : list string) (date_from date_to limit : Z)
    (sort_by : string) :
  Forall (fun sent => req_limit sent = Z.min (limit * 3) 500)
    (search_subreddit_posts_by_keyword_and_date
       select date_filtering search_posts
       subreddit keywords date_from date_to limit sort_by).2 /\
  (forall tf, select (days_between date_from date_to) = Ok tf ->
     (search_subreddit_posts_by_keyword_and_date
        select date_filtering search_posts
        subreddit keywords date_from date_to limit sort_by).2
     = [Request (join " OR " keywords) subreddit "relevance" tf
                (Z.min (limit * 3) 500)]).
Proof.
  destruct (select (days_between date_from date_to)) as [tf|e'] eqn:Hsel.
  - rewrite (search_selected _ _ _ _ _ _ _ _ _ tf Hsel). cbn [snd]. split.
    + by repeat constructor.
    + by intros tf' [= <-].
  - rewrite (search_rejected _ _ _ _ _ _ _ _ _ e' Hsel). cbn [snd].
    split; [constructor | by intros tf' [=]].
Qed.

(** ** The fixture, run through the model *)

Example search_sample_posts :
  search_subreddit_posts_by_keyword_and_date
    select_optimal_time_filter (apply_improved_date_filtering sample_now)
    (fun _ => Ok (create_sample_posts sample_now))
    "python" ["FastAPI"] (sample_now - 7 * microseconds_per_day) sample_now
    2 "score"
  = (Ok (take 2 (create_sample_posts sample_now)),
     [Request "FastAPI" "python" "relevance" week 6]).
Proof. vm_compute. reflexivity. Qed.

Example filter_bad_posts :
  (date_range_filter parse_datetime (bad_posts sample_now)
     {| span_from := sample_now - 7 * microseconds_per_day; span_to := sample_now |}
     (4 * microseconds_per_hour) true).1 = drop 2 (bad_posts sample_now) /\
  excluded_invalid
    (date_range_filter parse_datetime (bad_posts sample_now)
       {| span_from := sample_now - 7 * microseconds_per_day; span_to := sample_now |}
       (4 * microseconds_per_hour) true).2 = 2%nat.
Proof. split; vm_compute; reflexivity. Qed.

(** * Further properties of the search *)

(** ** What a successful run went through *)

Section Inversion.

Implicit Types (key : post -> pyval) (l r : list post).

Lemma insert_reverse_perm key x l r :
  insert_reverse key x l = Ok r -> r ≡ₚ x :: l.
Proof.
  revert r. induction l as [|y l IH]; intros r; cbn [insert_reverse].
  - by intros [= <-].
  - destruct (py_lt (key x) (key y)) as [[|]|e]; cbn [bind]; [| by intros [= <-] | done].
    destruct (insert_reverse key x l) as [placed|e]; cbn [bind]; [| done].
    intros [= <-]. rewrite (IH placed eq_refl). apply Permutation_swap.
Qed.

(** Whatever the keys, a sort that succeeds only reorders. *)
Lemma sort_reverse_perm key l r : sort_reverse key l = Ok r -> r ≡ₚ l.
Proof.
  revert r. induction l as [|x l IH]; intros r; cbn [sort_reverse].
  - by intros [= <-].
  - destruct (sort_reverse key l) as [sorted|e]; cbn [bind]; [| done].
    intros Hins%insert_reverse_perm. by rewrite Hins, (IH sorted eq_refl).
Qed.

Lemma py_lt_raises (a b : pyval) (e : exn) : py_lt a b = Raise e -> e = TypeError.
Proof. destruct a, b; cbn; congruence. Qed.

Lemma insert_reverse_raises key x l e :
  insert_reverse key x l = Raise e -> e = TypeError.
Proof.
  induction l as [|y l IH]; cbn [insert_reverse]; [done |].
  destruct (py_lt (key x) (key y)) as [[|]|e'] eqn:Hlt; cbn [bind].
  - destruct (insert_reverse key x l); cbn [bind]; [done |].
    intros [= <-]. by apply IH.
  - done.
  - intros [= <-]. by eapply py_lt_raises.
Qed.

Lemma sort_reverse_raises key l e : sort_reverse key l = Raise e -> e = TypeError.
Proof.
  induction l as [|x l IH]; cbn [sort_reverse]; [done |].
  destruct (sort_reverse key l) as [sorted|e']; cbn [bind].
  - apply insert_reverse_raises.
  - intros [= <-]. by apply IH.
Qed.

Lemma rank_inv l sort_by limit r :
  rank l sort_by limit = Ok r ->
  exists sorted, sorted ≡ₚ l /\ r = slice_to limit sorted.
Proof.
  unfold rank. destruct (sort_key sort_by) as [key|].
  - destruct (sort_reverse key l) as [sorted|e] eqn:Hsort; cbn [bind]; [| done].
    intros [= <-]. exists sorted. split; [by eapply sort_reverse_perm | done].
  - cbn [bind]. intros [= <-]. by exists l.
Qed.

Lemma length_slice_to {A : Type} (limit : Z) (l : list A) :
  length (slice_to limit l)
  = if 0 <=? limit then Nat.min (Z.to_nat limit) (length l)
    else (length l - Z.to_nat (- limit))%nat.
Proof.
  unfold slice_to. destruct (0 <=? limit); rewrite length_take; lia.
Qed.

Lemma slice_to_sublist {A : Type} (limit : Z) (l : list A) :
  slice_to limit l `sublist_of` l.
Proof. unfold slice_to. destruct (0 <=? limit); apply sublist_take. Qed.

(** The posts the keyword loop keeps are those whose match is true. *)
Lemma keyword_filter_inv (posts : list post) (keywords : list string) r :
  keyword_filter posts keywords = Ok r ->
  r = filter (fun p => keyword_match p keywords = Ok true) posts.
Proof.
  revert r. induction posts as [|p posts IH]; intros r; cbn [keyword_filter].
  - by intros [= <-].
  - destruct (keyword_match p keywords) as [hit|e] eqn:Hhit; cbn [bind]; [| done].
    destruct (keyword_filter posts keywords) as [kept|e]; cbn [bind]; [| done].
    intros [= <-]. rewrite filter_cons, <- (IH kept eq_refl), Hhit.
    destruct hit; [by rewrite decide_True | by rewrite decide_False].
Qed.

Variable select : Z -> res time_filter.
Variable date_filtering : list post -> Z -> bool -> res (list post).
Variable search_posts : request -> res (list post).

Lemma after_fetch_inv all_posts keywords days_diff limit sort_by r :
  after_fetch date_filtering all_posts keywords days_diff limit sort_by = Ok r ->
  (all_posts = [] /\ r = []) \/
  exists filtered sorted,
    date_filtering all_posts days_diff true = Ok filtered /\
    sorted ≡ₚ filter (fun p => keyword_match p keywords = Ok true) filtered /\
    r = slice_to limit sorted.
Proof.
  unfold after_fetch. destruct all_posts as [|p0 rest0].
  { intros [= <-]. by left. }
  destruct (date_filtering (p0 :: rest0) days_diff true) as [filtered|e];
    cbn [bind]; [| done].
  destruct (keyword_filter filtered keywords) as [kept|e] eqn:Hkept;
    cbn [bind]; [| done].
  intros (sorted & Hperm & ->)%rank_inv. right.
  exists filtered, sorted. rewrite <- (keyword_filter_inv _ _ _ Hkept). done.
Qed.

(** A run that succeeds selected a window, got an answer and ranked it. *)
Lemma search_ok_inv subreddit keywords date_from date_to limit sort_by r :
  (search_subreddit_posts_by_keyword_and_date select date_filtering search_posts
     subreddit keywords date_from date_to limit sort_by).1 = Ok r ->
  exists tf all_posts,
    select (days_between date_from date_to) = Ok tf /\
    search_posts (Request (join " OR " keywords) subreddit "relevance" tf
                          (Z.min (limit * 3) 500)) = Ok all_posts /\
    after_fetch date_filtering all_posts keywords
      (days_between date_from date_to) limit sort_by = Ok r.
Proof.
  unfold search_subreddit_posts_by_keyword_and_date.
  destruct (select (days_between date_from date_to)) as [tf|e]; [| done].
  cbn [fst]. set (sent := Request _ _ _ _ _).
  destruct (search_posts sent) as [all_posts|e] eqn:Hall; cbn [bind]; [| done].
  unfold log_and_reraise. intros Hr. exists tf, all_posts.
  split; [done |]. split; [done |].
  by destruct (after_fetch _ _ _ _ _ _).
Qed.

End Inversion.

(** ** Bounds and provenance of the result *)

(** X1: with a limit of at least zero, a search that succeeds never returns
    more than [limit] posts, whatever the helpers and the remote source do. *)
Theorem search_result_within_limit
    (select : Z -> res time_filter)
    (date_filtering : list post -> Z -> bool -> res (list post))
    (search_posts : request -> res (list post))
    (subreddit : string) (keywords : list string) (date_from date_to limit : Z)
    (sort_by : string) (r : list post) :
  0 <= limit ->
  (search_subreddit_posts_by_keyword_and_date select date_filtering search_posts
     subreddit keywords date_from date_to limit sort_by).1 = Ok r ->
  Z.of_nat (length r) <= limit.
Proof.
  intros Hlimit (tf & all_posts & _ & _ & Hr)%search_ok_inv.
  apply after_fetch_inv in Hr as [[_ ->] | (filtered & sorted & _ & _ & ->)].
  - simpl. lia.
  - rewrite length_slice_to. destruct (Z.leb_spec 0 limit); lia.
Qed.

Lemma search_result_within_limit_witness :
  0 <= 2 /\
  (search_subreddit_posts_by_keyword_and_date
     select_optimal_time_filter (apply_improved_date_filtering sample_now)
     (fun _ => Ok (create_sample_posts sample_now))
     "python" ["fastapi"] (sample_now - 7 * microseconds_per_day) sample_now
     2 "score").1 = Ok (take 2 (create_sample_posts sample_now)) /\
  Z.of_nat (length (take 2 (create_sample_posts sample_now))) <= 2.
Proof.
  assert (Hrun :
    (search_subreddit_posts_by_keyword_and_date
       select_optimal_time_filter (apply_improved_date_filtering sample_now)
       (fun _ => Ok (create_sample_posts sample_now))
       "python" ["fastapi"] (sample_now - 7 * microseconds_per_day) sample_now
       2 "score").1 = Ok (take 2 (create_sample_posts sample_now))).
  { vm_compute. reflexivity. }
  split; [lia |]. split; [exact Hrun |].
  exact (search_result_within_limit _ _ _ _ _ _ _ 2 _ _ ltac:(lia) Hrun).
Defined.

(** X2: every post a successful search returns contains one of the keywords:
    its keyword match is true. *)
Theorem search_result_matches_keyword
    (select : Z -> res time_filter)
    (date_filtering : list post -> Z -> bool -> res (list post))
    (search_posts : request -> res (list post))
    (subreddit : string) (keywords : list string) (date_from date_to limit : Z)
    (sort_by : string) (r : list post) :
  (search_subreddit_posts_by_keyword_and_date select date_filtering search_posts
     subreddit keywords date_from date_to limit sort_by).1 = Ok r ->
  Forall (fun p => keyword_match p keywords = Ok true) r.
Proof.
  intros (tf & all_posts & _ & _ & Hr)%search_ok_inv.
  apply after_fetch_inv in Hr as [[_ ->] | (filtered & sorted & _ & Hperm & ->)].
  - constructor.
  - apply Forall_forall. intros p Hp.
    assert (Hsorted : p ∈ sorted).
    { eapply elem_of_sublist; [exact Hp | apply slice_to_sublist]. }
    rewrite Hperm in Hsorted. by apply list_elem_of_filter in Hsorted as [? _].
Qed.

Lemma search_result_matches_keyword_witness :
  (search_subreddit_posts_by_keyword_and_date
     select_optimal_time_filter (apply_improved_date_filtering sample_now)
     (fun _ => Ok (create_sample_posts sample_now))
     "python" ["Yesterday"; "week"] (sample_now - 7 * microseconds_per_day)
     sample_now 5 "date").1
  = Ok (take 2 (drop 1 (create_sample_posts sample_now))) /\
  Forall (fun p => keyword_match p ["Yesterday"; "week"] = Ok true)
    (take 2 (drop 1 (create_sample_posts sample_now))).
Proof.
  assert (Hrun :
    (search_subreddit_posts_by_keyword_and_date
       select_optimal_time_filter (apply_improved_date_filtering sample_now)
       (fun _ => Ok (create_sample_posts sample_now))
       "python" ["Yesterday"; "week"] (sample_now - 7 * microseconds_per_day)
       sample_now 5 "date").1
    = Ok (take 2 (drop 1 (create_sample_posts sample_now)))).
  { vm_compute. reflexivity. }
  split; [exact Hrun |].
  exact (search_result_matches_keyword _ _ _ _ _ _ _ _ _ _ Hrun).
Defined.

(** X3: a successful search invents and repeats nothing: when the remote
    source answered with posts, the posts returned are among those the date
    filter let through, each at most as often as there. *)
Theorem search_result_from_date_filter
    (select : Z -> res time_filter)
    (date_filtering : list post -> Z -> bool -> res (list post))
    (search_posts : request -> res (list post))
    (subreddit : string) (keywords : list string) (date_from date_to limit : Z)
    (sort_by : string) (r : list post) :
  (search_subreddit_posts_by_keyword_and_date select date_filtering search_posts
     subreddit keywords date_from date_to limit sort_by).1 = Ok r ->
  r = [] \/
  exists tf all_posts filtered,
    select (days_between date_from date_to) = Ok tf /\
    search_posts (Request (join " OR " keywords) subreddit "relevance" tf
                          (Z.min (limit * 3) 500)) = Ok all_posts /\
    date_filtering all_posts (days_between date_from date_to) true = Ok filtered /\
    r ⊆+ filtered.
Proof.
  intros (tf & all_posts & Hsel & Hall & Hr)%search_ok_inv.
  apply after_fetch_inv in Hr as [[_ ->] | (filtered & sorted & Hf & Hperm & ->)].
  - by left.
  - right. exists tf, all_posts, filtered. repeat split; try done.
    transitivity sorted; [apply sublist_submseteq, slice_to_sublist |].
    rewrite Hperm. apply sublist_submseteq, sublist_filter.
Qed.

Lemma search_result_from_date_filter_witness :
  (search_subreddit_posts_by_keyword_and_date
     select_optimal_time_filter (apply_improved_date_filtering sample_now)
     (fun _ => Ok (create_sample_posts sample_now))
     "python" ["fastapi"] (sample_now - 7 * microseconds_per_day) sample_now
     2 "score").1 = Ok (take 2 (create_sample_posts sample_now)) /\
  (take 2 (create_sample_posts sample_now) = [] \/
   exists tf all_posts filtered,
     select_optimal_time_filter
       (days_between (sample_now - 7 * microseconds_per_day) sample_now) = Ok tf /\
     Ok (create_sample_posts sample_now) = Ok all_posts /\
     apply_improved_date_filtering sample_now all_posts
       (days_between (sample_now - 7 * microseconds_per_day) sample_now) true
     = Ok filtered /\
     take 2 (create_sample_posts sample_now) ⊆+ filtered).
Proof.
  assert (Hrun :
    (search_subreddit_posts_by_keyword_and_date
       select_optimal_time_filter (apply_improved_date_filtering sample_now)
       (fun _ => Ok (create_sample_posts sample_now))
       "python" ["fastapi"] (sample_now - 7 * microseconds_per_day) sample_now
       2 "score").1 = Ok (take 2 (create_sample_posts sample_now))).
  { vm_compute. reflexivity. }
  split; [exact Hrun |].
  exact (search_result_from_date_filter _ _ _ _ _ _ _ _ _ _ Hrun).
Defined.

(** ** Edge cases of the ranking *)

Section RankEdges.

Context {A : Type} (f : A -> Z).

(** A list already in descending order is left as it is. *)
Lemma sort_desc_descending (l : list A) : descending f l -> sort_desc f l = l.
Proof.
  unfold descending. induction 1 as [|x l Hl IH Hx]; [done |].
  cbn [sort_desc foldr]. fold (sort_desc f l). rewrite IH.
  destruct l as [|y l']; [done |].
  cbn [insert_desc]. apply Forall_cons in Hx as [Hy _].
  destruct (Z.ltb_spec (f x) (f y)); [lia | done].
Qed.

End RankEdges.

Lemma uniform_keys_submseteq (key : post -> pyval) (l l' : list post) :
  l' ⊆+ l -> uniform_keys key l -> uniform_keys key l'.
Proof.
  intros Hsub [H|H]; [left | right];
    apply Forall_forall; intros x Hx; rewrite Forall_forall in H;
    apply H; by eapply elem_of_submseteq.
Qed.

Lemma sort_key_other (sort_by : string) :
  sort_by <> "score" -> sort_by <> "comments" -> sort_by <> "date" ->
  sort_key sort_by = None.
Proof.
  intros H1 H2 H3. unfold sort_key.
  apply String.eqb_neq in H1, H2, H3. by rewrite H1, H2, H3.
Qed.

(** A [sort_by] other than ["score"], ["comments"] and ["date"] is not an
    error: the posts are not sorted at all. *)
Lemma rank_unknown_sort_by (l : list post) (sort_by : string) (limit : Z) :
  sort_by <> "score" -> sort_by <> "comments" -> sort_by <> "date" ->
  rank l sort_by limit = Ok (slice_to limit l).
Proof.
  intros H1 H2 H3. unfold rank. by rewrite (sort_key_other sort_by H1 H2 H3).
Qed.

(** X4: with a [sort_by] other than ["score"], ["comments"] and ["date"] the
    search sorts nothing and compares no keys: what it returns is the
    matching posts in the order the date filter gave them, cut at the
    limit. *)
Theorem search_unknown_sort_by_keeps_order
    (select : Z -> res time_filter)
    (date_filtering : list post -> Z -> bool -> res (list post))
    (search_posts : request -> res (list post))
    (subreddit : string) (keywords : list string) (date_from date_to limit : Z)
    (sort_by : string) (tf : time_filter) (all_posts filtered kept : list post) :
  sort_by <> "score" -> sort_by <> "comments" -> sort_by <> "date" ->
  select (days_between date_from date_to) = Ok tf ->
  search_posts (Request (join " OR " keywords) subreddit "relevance" tf
                        (Z.min (limit * 3) 500)) = Ok all_posts ->
  all_posts <> [] ->
  date_filtering all_posts (days_between date_from date_to) true = Ok filtered ->
  keyword_filter filtered keywords = Ok kept ->
  (search_subreddit_posts_by_keyword_and_date select date_filtering search_posts
     subreddit keywords date_from date_to limit sort_by).1
  = Ok (slice_to limit kept) /\
  slice_to limit kept `sublist_of` filtered.
Proof.
  intros H1 H2 H3 Hsel Hall Hne Hf Hkept.
  rewrite (search_selected _ _ _ _ _ _ _ _ _ tf Hsel). cbn [fst].
  rewrite Hall. cbn [bind]. unfold after_fetch.
  destruct all_posts as [|p0 rest]; [done |].
  rewrite Hf. cbn [bind]. rewrite Hkept. cbn [bind].
  rewrite (rank_unknown_sort_by kept sort_by limit H1 H2 H3). split; [done |].
  transitivity kept; [apply slice_to_sublist |].
  rewrite (keyword_filter_inv _ _ _ Hkept). apply sublist_filter.
Qed.

Lemma search_unknown_sort_by_keeps_order_witness :
  (search_subreddit_posts_by_keyword_and_date
     select_optimal_time_filter (apply_improved_date_filtering sample_now)
     (fun _ => Ok (create_sample_posts sample_now))
     "python" ["post"] (sample_now - 7 * microseconds_per_day) sample_now
     3 "hot").1
  = Ok (slice_to 3 (take 3 (create_sample_posts sample_now)
                    ++ drop 4 (create_sample_posts sample_now))).
Proof.
  apply (search_unknown_sort_by_keeps_order _ _ _ _ _ _ _ _ _ week
           (create_sample_posts sample_now)
           (take 3 (create_sample_posts sample_now)
            ++ drop 4 (create_sample_posts sample_now))
           (take 3 (create_sample_posts sample_now)
            ++ drop 4 (create_sample_posts sample_now)));
    try discriminate; vm_compute; reflexivity.
Defined.

Lemma slice_to_nonneg {A : Type} (limit : Z) (l : list A) :
  0 <= limit -> slice_to limit l = take (Z.to_nat limit) l.
Proof. intros H. unfold slice_to. destruct (Z.leb_spec 0 limit); [done | lia]. Qed.

(** With the whole length as limit, [rank] returns the whole sorted list. *)
Lemma rank_whole (l : list post) (sort_by : string) (limit : Z) (r : list post) :
  rank l sort_by limit = Ok r ->
  exists sorted : list post,
    rank l sort_by (Z.of_nat (length l)) = Ok sorted /\
    sorted ≡ₚ l /\ r = slice_to limit sorted.
Proof.
  unfold rank. intros Hrank.
  assert (Hsorted : exists sorted : list post,
    match sort_key sort_by with
    | Some key => sort_reverse key l
    | None => Ok l
    end = Ok sorted /\ sorted ≡ₚ l /\ r = slice_to limit sorted).
  { destruct (sort_key sort_by) as [key|].
    - destruct (sort_reverse key l) as [sorted|e] eqn:Hsort; cbn [bind] in Hrank;
        [| done].
      injection Hrank as <-. exists sorted.
      split; [done |]. split; [by eapply sort_reverse_perm | done].
    - cbn [bind] in Hrank. injection Hrank as <-. by exists l. }
  destruct Hsorted as (sorted & -> & Hperm & ->). cbn [bind].
  exists sorted. split; [| done].
  rewrite slice_to_nonneg by lia. rewrite Nat2Z.id, <- Hperm.
  by rewrite firstn_all.
Qed.

(** X5: a negative limit does not give an empty result: the ranking then
    returns the whole sorted list (what [rank] gives with the length as
    limit) without its last [-limit] posts, or without all of them when there
    are fewer: the posts with the least values are the ones left out, and
    [length l - (-limit)] posts are returned. *)
Theorem rank_negative_limit (l : list post) (sort_by : string) (limit : Z)
    (r : list post) :
  limit < 0 ->
  rank l sort_by limit = Ok r ->
  length r = (length l - Z.to_nat (- limit))%nat /\
  exists sorted dropped : list post,
    rank l sort_by (Z.of_nat (length l)) = Ok sorted /\
    sorted = r ++ dropped /\
    length dropped = Nat.min (Z.to_nat (- limit)) (length l).
Proof.
  intros Hneg (sorted & Hwhole & Hperm & ->)%rank_whole.
  split.
  { rewrite length_slice_to.
    destruct (Z.leb_spec 0 limit); [lia | by rewrite Hperm]. }
  exists sorted, (drop (length sorted - Z.to_nat (- limit)) sorted).
  split; [exact Hwhole |].
  unfold slice_to. destruct (Z.leb_spec 0 limit); [lia |].
  split; [by rewrite take_drop |].
  rewrite length_drop, Hperm. lia.
Qed.

Lemma rank_negative_limit_witness :
  -1 < 0 /\
  rank (create_sample_posts sample_now) "score" (-1)
  = Ok [ {[ "reddit_id" := VStr "post4"; "title" := VStr "Very old post about fastapi";
            "created_utc" := VDatetime (sample_now - 10 * microseconds_per_day);
            "score" := VInt 200 ]};
         {[ "reddit_id" := VStr "post1"; "title" := VStr "Recent post about fastapi";
            "created_utc" := VDatetime (sample_now - 2 * microseconds_per_hour);
            "score" := VInt 100 ]};
         {[ "reddit_id" := VStr "post2"; "title" := VStr "Yesterday post about fastapi";
            "created_utc" := VDatetime (sample_now - 1 * microseconds_per_day);
            "score" := VInt 75 ]};
         {[ "reddit_id" := VStr "post3"; "title" := VStr "Week old post about fastapi";
            "created_utc" := VDatetime (sample_now - 7 * microseconds_per_day);
            "score" := VInt 50 ]} ] /\
  exists sorted dropped : list post,
    rank (create_sample_posts sample_now) "score"
      (Z.of_nat (length (create_sample_posts sample_now))) = Ok sorted /\
    sorted
    = [ {[ "reddit_id" := VStr "post4"; "title" := VStr "Very old post about fastapi";
           "created_utc" := VDatetime (sample_now - 10 * microseconds_per_day);
           "score" := VInt 200 ]};
        {[ "reddit_id" := VStr "post1"; "title" := VStr "Recent post about fastapi";
           "created_utc" := VDatetime (sample_now - 2 * microseconds_per_hour);
           "score" := VInt 100 ]};
        {[ "reddit_id" := VStr "post2"; "title" := VStr "Yesterday post about fastapi";
           "created_utc" := VDatetime (sample_now - 1 * microseconds_per_day);
           "score" := VInt 75 ]};
        {[ "reddit_id" := VStr "post3"; "title" := VStr "Week old post about fastapi";
           "created_utc" := VDatetime (sample_now - 7 * microseconds_per_day);
           "score" := VInt 50 ]} ] ++ dropped /\
    length dropped = 1%nat.
Proof.
  assert (Hrank :
    rank (create_sample_posts sample_now) "score" (-1)
    = Ok [ {[ "reddit_id" := VStr "post4"; "title" := VStr "Very old post about fastapi";
              "created_utc" := VDatetime (sample_now - 10 * microseconds_per_day);
              "score" := VInt 200 ]};
           {[ "reddit_id" := VStr "post1"; "title" := VStr "Recent post about fastapi";
              "created_utc" := VDatetime (sample_now - 2 * microseconds_per_hour);
              "score" := VInt 100 ]};
           {[ "reddit_id" := VStr "post2"; "title" := VStr "Yesterday post about fastapi";
              "created_utc" := VDatetime (sample_now - 1 * microseconds_per_day);
              "score" := VInt 75 ]};
           {[ "reddit_id" := VStr "post3"; "title" := VStr "Week old post about fastapi";
              "created_utc" := VDatetime (sample_now - 7 * microseconds_per_day);
              "score" := VInt 50 ]} ]).
  { vm_compute. reflexivity. }
  split; [lia |]. split; [exact Hrank |].
  destruct (rank_negative_limit _ _ (-1) _ ltac:(lia) Hrank)
    as (_ & sorted & dropped & Hwhole & Hsplit & Hlen).
  exists sorted, dropped. split; [exact Hwhole |]. split; [exact Hsplit |].
  exact Hlen.
Defined.

(** X6: ranking is idempotent: on posts whose keys compare and for a limit of
    at least zero, ranking the result of a ranking again, by the same
    criterion and limit, returns it unchanged. *)
Theorem rank_again (items : list post) (c : criterion) (limit : Z)
    (r : list post) :
  0 <= limit ->
  uniform_keys (criterion_key c) items ->
  rank items (sort_by_of c) limit = Ok r ->
  rank r (sort_by_of c) limit = Ok r.
Proof.
  intros Hlimit Hu Hrank.
  rewrite (rank_uniform items c limit Hu), slice_to_nonneg in Hrank by done.
  injection Hrank as <-.
  set (r := take (Z.to_nat limit) (sort_desc (rank_value c) items)).
  assert (Hr : descending (rank_value c) r) by apply descending_take, sort_desc_sorted.
  rewrite rank_uniform.
  - rewrite (sort_desc_descending _ r Hr), slice_to_nonneg by done.
    unfold r. by rewrite take_take, Nat.min_id.
  - eapply uniform_keys_submseteq; [| exact Hu].
    transitivity (sort_desc (rank_value c) items).
    + apply sublist_submseteq, sublist_take.
    + by rewrite sort_desc_perm.
Qed.

Lemma rank_again_witness :
  0 <= 2 /\
  uniform_keys (criterion_key RECENCY) (create_sample_posts sample_now) /\
  exists r,
    rank (create_sample_posts sample_now) "date" 2 = Ok r /\
    rank r "date" 2 = Ok r.
Proof.
  assert (Hu : uniform_keys (criterion_key RECENCY) (create_sample_posts sample_now)).
  { right. repeat constructor; eexists; vm_compute; reflexivity. }
  split; [lia |]. split; [exact Hu |].
  destruct (rank (create_sample_posts sample_now) "date" 2) as [r|e] eqn:Hrank.
  - exists r. split; [reflexivity |].
    exact (rank_again _ RECENCY 2 r ltac:(lia) Hu Hrank).
  - vm_compute in Hrank. discriminate.
Defined.

(** ** The ranking step inside the search *)






(** The search on the posts of both fixtures, by score: the post without a
    date and the one with a bad date are dropped by the date filter, and the
    post without a score comes last. *)
Example search_with_missing_score :
  after_fetch (apply_improved_date_filtering sample_now)
    (bad_posts sample_now ++ create_sample_posts sample_now) ["post"] 7 10 "score"
  = Ok (take 3 (create_sample_posts sample_now)
        ++ drop 4 (create_sample_posts sample_now)
        ++ drop 2 (bad_posts sample_now)).
Proof. vm_compute. reflexivity. Qed.

(** ** Edge cases of the keyword filter *)

Section KeywordEdges.

Implicit Types (p : post) (posts : list post) (keywords : list string).

Lemma combined_text_bad_title p (v : pyval) :
  p !! "title" = Some v -> (forall s, v <> VStr s) ->
  combined_text p = Raise AttributeError.
Proof.
  intros Hv Hnot. unfold combined_text, dict_get. rewrite Hv. cbn [default].
  destruct v as [| |s|]; try done. by destruct (Hnot s).
Qed.

Lemma keyword_filter_raises posts keywords e :
  keyword_filter posts keywords = Raise e -> e = AttributeError.
Proof.
  induction posts as [|p posts IH]; cbn [keyword_filter]; [done |].
  unfold keyword_match at 1.
  destruct (combined_text p) as [text|e'] eqn:Htext; cbn [bind].
  - destruct (keyword_filter posts keywords); cbn [bind]; [done |].
    intros [= <-]. by apply IH.
  - intros [= <-]. by eapply combined_text_raises.
Qed.

(** One post whose text cannot be read makes the whole loop fail. *)
Lemma keyword_filter_bad_post posts keywords p e :
  p ∈ posts -> combined_text p = Raise e ->
  keyword_filter posts keywords = Raise AttributeError.
Proof.
  intros Hp Hbad.
  destruct (keyword_filter posts keywords) as [kept|e'] eqn:Hrun.
  - exfalso. revert kept Hrun.
    induction Hp as [p posts | p q posts Hp IH]; intros kept;
      cbn [keyword_filter]; unfold keyword_match at 1.
    + by rewrite Hbad.
    + destruct (combined_text q); cbn [bind]; [| done].
      destruct (keyword_filter posts keywords) as [kept'|]; cbn [bind]; [| done].
      intros _. by eapply IH.
  - by rewrite (keyword_filter_raises _ _ _ Hrun).
Qed.

(** Whether the loop fails does not depend on the keywords. *)
Lemma keyword_filter_ok_any posts keywords keywords' kept :
  keyword_filter posts keywords = Ok kept ->
  exists kept', keyword_filter posts keywords' = Ok kept'.
Proof.
  revert kept. induction posts as [|p posts IH]; intros kept;
    cbn [keyword_filter]; [by eexists |].
  unfold keyword_match.
  destruct (combined_text p); cbn [bind]; [| done].
  destruct (keyword_filter posts keywords) as [k|]; cbn [bind]; [| done].
  intros _. destruct (IH k eq_refl) as [k' ->]. cbn [bind]. by eexists.
Qed.

Lemma any_keyword_app keywords keywords' (text : string) :
  any_keyword (keywords ++ keywords') text
  = any_keyword keywords text || any_keyword keywords' text.
Proof. unfold any_keyword. apply existsb_app. Qed.

Lemma any_keyword_nocase keywords keywords' (text : string) :
  Forall2 (fun k k' => Str.lower k = Str.lower k') keywords keywords' ->
  any_keyword keywords text = any_keyword keywords' text.
Proof.
  unfold any_keyword. induction 1 as [|k k' ks ks' Hk _ IH]; [done |].
  cbn [existsb]. by rewrite Hk, IH.
Qed.

End KeywordEdges.

(** X7: one post with a title that is present but not a string, such as
    [None], among the posts the date filter let through makes the whole
    search fail with [AttributeError], whatever the keywords. *)
Theorem search_fails_on_bad_title
    (select : Z -> res time_filter)
    (date_filtering : list post -> Z -> bool -> res (list post))
    (search_posts : request -> res (list post))
    (subreddit : string) (keywords : list string) (date_from date_to limit : Z)
    (sort_by : string) (tf : time_filter) (all_posts filtered : list post)
    (p : post) (v : pyval) :
  select (days_between date_from date_to) = Ok tf ->
  search_posts (Request (join " OR " keywords) subreddit "relevance" tf
                        (Z.min (limit * 3) 500)) = Ok all_posts ->
  all_posts <> [] ->
  date_filtering all_posts (days_between date_from date_to) true = Ok filtered ->
  p ∈ filtered ->
  p !! "title" = Some v -> (forall s, v <> VStr s) ->
  (search_subreddit_posts_by_keyword_and_date select date_filtering search_posts
     subreddit keywords date_from date_to limit sort_by).1 = Raise AttributeError.
Proof.
  intros Hsel Hall Hne Hf Hp Hv Hnot.
  rewrite (search_selected _ _ _ _ _ _ _ _ _ tf Hsel). cbn [fst].
  rewrite Hall. cbn [bind]. unfold after_fetch.
  destruct all_posts as [|p0 rest]; [done |].
  rewrite Hf. cbn [bind].
  rewrite (keyword_filter_bad_post filtered keywords p AttributeError Hp
             (combined_text_bad_title p v Hv Hnot)).
  reflexivity.
Qed.

Lemma search_fails_on_bad_title_witness :
  (search_subreddit_posts_by_keyword_and_date
     select_optimal_time_filter (apply_improved_date_filtering sample_now)
     (fun _ => Ok [ {[ "reddit_id" := VStr "good1"; "title" := VStr "Good post";
                       "created_utc" := VDatetime sample_now ]};
                    {[ "reddit_id" := VStr "bad3"; "title" := VNone;
                       "created_utc" := VDatetime sample_now ]} ])
     "python" ["good"] (sample_now - 7 * microseconds_per_day) sample_now
     10 "score").1 = Raise AttributeError.
Proof.
  apply (search_fails_on_bad_title _ _ _ _ _ _ _ _ _ week
           [ {[ "reddit_id" := VStr "good1"; "title" := VStr "Good post";
                "created_utc" := VDatetime sample_now ]};
             {[ "reddit_id" := VStr "bad3"; "title" := VNone;
                "created_utc" := VDatetime sample_now ]} ]
           [ {[ "reddit_id" := VStr "good1"; "title" := VStr "Good post";
                "created_utc" := VDatetime sample_now ]};
             {[ "reddit_id" := VStr "bad3"; "title" := VNone;
                "created_utc" := VDatetime sample_now ]} ]
           {[ "reddit_id" := VStr "bad3"; "title" := VNone;
              "created_utc" := VDatetime sample_now ]} VNone).
  - vm_compute. reflexivity.
  - reflexivity.
  - discriminate.
  - vm_compute. reflexivity.
  - apply list_elem_of_further, list_elem_of_here.
  - vm_compute. reflexivity.
  - discriminate.
Defined.

(** X8: the empty string and the single space are keywords that match every
    post with text fields: the empty string occurs in any text, and the
    searched text always holds the space put between title and body. *)
Theorem blank_keyword_matches_all (p : post) (title body : string)
    (keywords : list string) (k : string) :
  has_text p title body ->
  k ∈ keywords -> k = "" \/ k = " " ->
  keyword_match p keywords = Ok true.
Proof.
  intros Htext Hk Hblank. unfold keyword_match.
  rewrite (combined_text_has_text p title body Htext). cbn [bind]. f_equal.
  apply any_keyword_spec. exists k. split; [done |].
  exists k. split; [| done].
  destruct Hblank as [-> | ->].
  - by exists "", (title +:+ " " +:+ body).
  - by exists title, body.
Qed.

Lemma blank_keyword_matches_all_witness :
  has_text {[ "title" := VStr "Good post" ]} "Good post" "" /\
  "" ∈ ["flask"; ""] /\
  keyword_match {[ "title" := VStr "Good post" ]} ["flask"; ""] = Ok true.
Proof.
  assert (Htext : has_text {[ "title" := VStr "Good post" ]} "Good post" "").
  { split; vm_compute; reflexivity. }
  assert (Hk : "" ∈ ["flask"; ""]).
  { apply list_elem_of_further, list_elem_of_here. }
  split; [exact Htext |]. split; [exact Hk |].
  exact (blank_keyword_matches_all _ _ _ _ "" Htext Hk (or_introl eq_refl)).
Defined.

(** X9: adding keywords never loses a post: when the keyword loop succeeds
    on a list of keywords, it succeeds on any longer list, and what it kept
    before is kept still, in the same order. *)
Theorem more_keywords_keep_more (posts : list post)
    (keywords keywords' : list string) (kept : list post) :
  keyword_filter posts keywords = Ok kept ->
  exists kept',
    keyword_filter posts (keywords ++ keywords') = Ok kept' /\
    kept `sublist_of` kept'.
Proof.
  intros Hkept.
  destruct (keyword_filter_ok_any posts keywords (keywords ++ keywords') kept Hkept)
    as [kept' Hkept'].
  exists kept'. split; [done |].
  rewrite (keyword_filter_inv _ _ _ Hkept), (keyword_filter_inv _ _ _ Hkept').
  apply filter_sublist_impl. intros p. unfold keyword_match.
  destruct (combined_text p) as [text|]; cbn [bind]; [| done].
  intros [= Hany]. by rewrite any_keyword_app, Hany.
Qed.

Lemma more_keywords_keep_more_witness :
  keyword_filter (create_sample_posts sample_now) ["week"]
  = Ok (take 1 (drop 2 (create_sample_posts sample_now))) /\
  exists kept',
    keyword_filter (create_sample_posts sample_now) (["week"] ++ ["recent"])
    = Ok kept' /\
    take 1 (drop 2 (create_sample_posts sample_now)) `sublist_of` kept'.
Proof.
  assert (Hkept : keyword_filter (create_sample_posts sample_now) ["week"]
                  = Ok (take 1 (drop 2 (create_sample_posts sample_now)))).
  { vm_compute. reflexivity. }
  split; [exact Hkept |].
  exact (more_keywords_keep_more _ ["week"] ["recent"] _ Hkept).
Defined.

(** X10: the case of the keywords does not matter: two keyword lists that
    agree keyword by keyword up to letter case give the same match, and the
    same filtered list, on every post. *)
Theorem keyword_case_is_ignored (p : post) (posts : list post)
    (keywords keywords' : list string) :
  Forall2 (fun k k' => Str.lower k = Str.lower k') keywords keywords' ->
  keyword_match p keywords = keyword_match p keywords' /\
  keyword_filter posts keywords = keyword_filter posts keywords'.
Proof.
  intros Hcase.
  assert (Hmatch : forall q, keyword_match q keywords = keyword_match q keywords').
  { intros q. unfold keyword_match.
    destruct (combined_text q) as [text|]; cbn [bind]; [| done].
    by rewrite (any_keyword_nocase keywords keywords' text Hcase). }
  split; [apply Hmatch |].
  induction posts as [|q posts IH]; [done |].
  cbn [keyword_filter]. by rewrite Hmatch, IH.
Qed.

Lemma keyword_case_is_ignored_witness :
  Forall2 (fun k k' => Str.lower k = Str.lower k') ["FastAPI"] ["fastapi"] /\
  keyword_filter (create_sample_posts sample_now) ["FastAPI"]
  = keyword_filter (create_sample_posts sample_now) ["fastapi"].
Proof.
  assert (Hcase : Forall2 (fun k k' => Str.lower k = Str.lower k')
                    ["FastAPI"] ["fastapi"]).
  { repeat constructor. }
  split; [exact Hcase |].
  exact (proj2 (keyword_case_is_ignored ∅ _ _ _ Hcase)).
Defined.

(** ** What the search looks at *)

(** X11: the search uses [date_from] and [date_to] only through the number
    of whole days between them: two date ranges with the same day count give
    the same outcome and the same request, wherever they lie in time. *)
Theorem search_sees_day_count_only
    (select : Z -> res time_filter)
    (date_filtering : list post -> Z -> bool -> res (list post))
    (search_posts : request -> res (list post))
    (subreddit : string) (keywords : list string)
    (date_from date_to date_from' date_to' limit : Z) (sort_by : string) :
  days_between date_from date_to = days_between date_from' date_to' ->
  search_subreddit_posts_by_keyword_and_date select date_filtering search_posts
    subreddit keywords date_from date_to limit sort_by
  = search_subreddit_posts_by_keyword_and_date select date_filtering search_posts
      subreddit keywords date_from' date_to' limit sort_by.
Proof.
  intros Hdays. unfold search_subreddit_posts_by_keyword_and_date.
  by rewrite Hdays.
Qed.

Lemma search_sees_day_count_only_witness :
  days_between 0 (7 * microseconds_per_day)
  = days_between (365 * microseconds_per_day) (372 * microseconds_per_day + 5) /\
  search_subreddit_posts_by_keyword_and_date
    select_optimal_time_filter (apply_improved_date_filtering sample_now)
    (fun _ => Ok (create_sample_posts sample_now))
    "python" ["fastapi"] 0 (7 * microseconds_per_day) 2 "score"
  = search_subreddit_posts_by_keyword_and_date
      select_optimal_time_filter (apply_improved_date_filtering sample_now)
      (fun _ => Ok (create_sample_posts sample_now))
      "python" ["fastapi"] (365 * microseconds_per_day)
      (372 * microseconds_per_day + 5) 2 "score".
Proof.
  split; [reflexivity |].
  apply search_sees_day_count_only. reflexivity.
Defined.

(** * The collection diagnostics and the environment check *)

Section Diagnostics.

Lemma list_min_le (t : Z) (ts : list Z) :
  Forall (fun x => list_min t ts <= x) (t :: ts).
Proof.
  unfold list_min. revert t. induction ts as [|u ts IH]; intros t; cbn [foldl].
  - repeat constructor. lia.
  - specialize (IH (Z.min t u)). apply Forall_cons in IH as [Hm Hts].
    constructor; [lia |]. constructor; [lia | done].
Qed.

Lemma list_max_ge (t : Z) (ts : list Z) :
  Forall (fun x => x <= list_max t ts) (t :: ts).
Proof.
  unfold list_max. revert t. induction ts as [|u ts IH]; intros t; cbn [foldl].
  - repeat constructor. lia.
  - specialize (IH (Z.max t u)). apply Forall_cons in IH as [Hm Hts].
    constructor; [lia |]. constructor; [lia | done].
Qed.

Lemma list_min_elem (t : Z) (ts : list Z) : list_min t ts ∈ t :: ts.
Proof.
  unfold list_min. revert t. induction ts as [|u ts IH]; intros t; cbn [foldl].
  - apply list_elem_of_here.
  - specialize (IH (Z.min t u)). apply elem_of_cons in IH as [-> | Hin].
    + destruct (Z.min_spec t u) as [[_ ->] | [_ ->]];
        [apply list_elem_of_here | apply list_elem_of_further, list_elem_of_here].
    + by do 2 apply list_elem_of_further.
Qed.

Lemma list_max_elem (t : Z) (ts : list Z) : list_max t ts ∈ t :: ts.
Proof.
  unfold list_max. revert t. induction ts as [|u ts IH]; intros t; cbn [foldl].
  - apply list_elem_of_here.
  - specialize (IH (Z.max t u)). apply elem_of_cons in IH as [-> | Hin].
    + destruct (Z.max_spec t u) as [[_ ->] | [_ ->]];
        [apply list_elem_of_further, list_elem_of_here | apply list_elem_of_here].
    + by do 2 apply list_elem_of_further.
Qed.

(** The dates collected are those of the posts that hold a [datetime]. *)
Lemma elem_of_post_dates (posts_data : list post) (t : Z) :
  t ∈ post_dates posts_data <->
  exists p, p ∈ posts_data /\ p !! "created_utc" = Some (VDatetime t).
Proof.
  induction posts_data as [|p rest IH].
  - cbn [post_dates]. split; [by intros ?%elem_of_nil | by intros (p & ?%elem_of_nil & _)].
  - assert (Hcase :
      (exists u, p !! "created_utc" = Some (VDatetime u) /\
                 post_dates (p :: rest) = u :: post_dates rest) \/
      ((forall u, p !! "created_utc" <> Some (VDatetime u)) /\
       post_dates (p :: rest) = post_dates rest)).
    { cbn [post_dates]. unfold dict_get.
      destruct (p !! "created_utc") as [[| | |u]|]; cbn [default truthy];
        [right | right | right | left; by exists u | right]; by split. }
    destruct Hcase as [(u & Hu & ->) | (Hno & ->)].
    + rewrite elem_of_cons, IH. split.
      * intros [-> | (q & Hq & Ht)].
        -- exists p. split; [apply list_elem_of_here | done].
        -- exists q. split; [by apply list_elem_of_further | done].
      * intros (q & [-> | Hq]%elem_of_cons & Ht).
        -- left. congruence.
        -- right. by exists q.
    + rewrite IH. split.
      * intros (q & Hq & Ht). exists q. split; [by apply list_elem_of_further | done].
      * intros (q & [-> | Hq]%elem_of_cons & Ht).
        -- by destruct (Hno t).
        -- by exists q.
Qed.

End Diagnostics.

(** X12: when the diagnostics log a date range, it runs from the earliest to
    the latest [datetime] found in the posts: both ends are the date of some
    post, every dated post lies between them, and posts without a
    [datetime] are passed over. *)
Theorem collected_range_covers (posts_data : list post)
    (earliest_post latest_post : Z) :
  CollectedRange earliest_post latest_post ∈ collection_debug posts_data ->
  (exists p, p ∈ posts_data /\ p !! "created_utc" = Some (VDatetime earliest_post)) /\
  (exists p, p ∈ posts_data /\ p !! "created_utc" = Some (VDatetime latest_post)) /\
  (forall p t, p ∈ posts_data -> p !! "created_utc" = Some (VDatetime t) ->
               earliest_post <= t <= latest_post).
Proof.
  unfold collection_debug. destruct posts_data as [|p0 rest0] eqn:Hposts.
  { intros [[=] | ?%elem_of_nil]%elem_of_cons. done. }
  rewrite <- Hposts. clear Hposts.
  destruct (post_dates posts_data) as [|t ts] eqn:Hdates.
  { intros [[=] | ?%elem_of_nil]%elem_of_cons. done. }
  intros [[=] | [[= -> ->] | ?%elem_of_nil]%elem_of_cons]%elem_of_cons;
    [| done].
  split; [| split].
  - apply elem_of_post_dates. rewrite Hdates. apply list_min_elem.
  - apply elem_of_post_dates. rewrite Hdates. apply list_max_elem.
  - intros p u Hp Hu.
    assert (Hin : u ∈ t :: ts).
    { rewrite <- Hdates. apply elem_of_post_dates. by exists p. }
    pose proof (list_min_le t ts) as Hmin. pose proof (list_max_ge t ts) as Hmax.
    rewrite Forall_forall in Hmin, Hmax. split; [by apply Hmin | by apply Hmax].
Qed.

Lemma collected_range_covers_witness :
  CollectedRange (sample_now - 10 * microseconds_per_day)
                 (sample_now + 1 * microseconds_per_hour)
  ∈ collection_debug (create_sample_posts sample_now ++ bad_posts (sample_now - 5)) /\
  (forall p t,
     p ∈ create_sample_posts sample_now ++ bad_posts (sample_now - 5) ->
     p !! "created_utc" = Some (VDatetime t) ->
     sample_now - 10 * microseconds_per_day <= t
     <= sample_now + 1 * microseconds_per_hour).
Proof.
  assert (Hline :
    CollectedRange (sample_now - 10 * microseconds_per_day)
                   (sample_now + 1 * microseconds_per_hour)
    ∈ collection_debug (create_sample_posts sample_now ++ bad_posts (sample_now - 5))).
  { vm_compute. apply list_elem_of_further, list_elem_of_here. }
  split; [exact Hline |].
  exact (proj2 (proj2 (collected_range_covers _ _ _ Hline))).
Defined.

(** X13: the environment check passes exactly when both Reddit credentials
    are set to a non-empty value; a variable set to the empty string counts
    as missing. *)
Theorem check_environment_spec (environ : gmap string string) :
  check_environment environ = true <->
  forall var, var ∈ required_vars ->
              exists v, environ !! var = Some v /\ v <> "".
Proof.
  unfold check_environment, required_vars. cbn [missing_vars]. unfold unset.
  split.
  - intros Hok var Hvar.
    destruct (environ !! "REDDIT_CLIENT_ID") as [a|] eqn:Ha; [| done].
    destruct (String.eqb_spec a ""); [done |].
    destruct (environ !! "REDDIT_CLIENT_SECRET") as [b|] eqn:Hb; [| done].
    destruct (String.eqb_spec b ""); [done |].
    apply elem_of_cons in Hvar as [-> | Hvar]; [by exists a |].
    apply elem_of_cons in Hvar as [-> | Hvar%elem_of_nil]; [by exists b | done].
  - intros Hall.
    destruct (Hall "REDDIT_CLIENT_ID") as (a & -> & Ha); [apply list_elem_of_here |].
    destruct (Hall "REDDIT_CLIENT_SECRET") as (b & -> & Hb);
      [apply list_elem_of_further, list_elem_of_here |].
    apply String.eqb_neq in Ha, Hb. by rewrite Ha, Hb.
Qed.

(** * Authentication *)

Section AuthFacts.

Import Auth.

Variable sha256_hex : string -> string.

Implicit Types (db : Session) (u : User) (k : APIKey).

Lemma user_by_id_some db id u :
  user_by_id db id = Some u -> u ∈ users db /\ user_id u = id.
Proof.
  unfold user_by_id. intros [Hin Hid]%find_some.
  split; [by apply list_elem_of_In | by apply Z.eqb_eq].
Qed.

Lemma users_touch k now db : users (touch k now db) = users db.
Proof. reflexivity. Qed.

Lemma user_by_id_touch k now db id :
  user_by_id (touch k now db) id = user_by_id db id.
Proof. reflexivity. Qed.

(** What a successful API-key lookup went through. *)
Lemma api_key_auth_inv credentials now db u db' :
  get_current_user_from_api_key sha256_hex credentials now db = (Return u, db') ->
  String.prefix "tk_" credentials = true /\
  exists k,
    List.find (key_matches (sha256_hex credentials)) (api_keys db) = Some k /\
    db' = touch k now db /\
    user_by_id db (key_user_id k) = Some u /\
    user_is_active u = true.
Proof.
  unfold get_current_user_from_api_key.
  destruct (String.prefix "tk_" credentials); cbn [negb]; [| done].
  fold (key_matches (sha256_hex credentials)).
  destruct (List.find _ (api_keys db)) as [k|] eqn:Hfind; [| done].
  rewrite user_by_id_touch.
  destruct (user_by_id db (key_user_id k)) as [user|] eqn:Huser; [| done].
  destruct (user_is_active user) eqn:Hactive; [| done].
  intros [= -> <-]. split; [done |]. by exists k.
Qed.

Lemma forget_touch k now db :
  map forget_last_used (api_keys (touch k now db))
  = map forget_last_used (api_keys db).
Proof.
  cbn [touch api_keys]. rewrite map_map. apply map_ext.
  intros k'. by destruct (key_id k' =? key_id k).
Qed.

Lemma touch_stamps k now db :
  Forall (fun k' => key_id k' = key_id k -> key_last_used_at k' = Some now)
         (api_keys (touch k now db)).
Proof.
  cbn [touch api_keys]. apply Forall_forall. intros k' Hin.
  apply list_elem_of_In, in_map_iff in Hin as (k0 & <- & _).
  destruct (Z.eqb_spec (key_id k0) (key_id k)); [done |]. by intros.
Qed.

End AuthFacts.

(** X14: an API key authenticates only what it should: when the lookup
    returns a user, the credentials start with ["tk_"], an active key of the
    table carries their SHA-256 hash and belongs to that user, and the user is
    a row of the table and is active. *)
Theorem api_key_auth_sound (sha256_hex : string -> string)
    (credentials : string) (utcnow : Z) (db : Auth.Session) (u : Auth.User)
    (db' : Auth.Session) :
  Auth.get_current_user_from_api_key sha256_hex credentials utcnow db
  = (Auth.Return u, db') ->
  String.prefix "tk_" credentials = true /\
  u ∈ Auth.users db /\
  Auth.user_is_active u = true /\
  exists k,
    k ∈ Auth.api_keys db /\
    Auth.key_hash k = sha256_hex credentials /\
    Auth.key_is_active k = true /\
    Auth.key_user_id k = Auth.user_id u.
Proof.
  intros (Hprefix & k & Hfind & _ & Huser & Hactive)%api_key_auth_inv.
  apply user_by_id_some in Huser as [Hu Hid].
  apply find_some in Hfind as [Hin Hk]. unfold key_matches in Hk.
  apply andb_true_iff in Hk as [Hhash%String.eqb_eq Hkactive].
  repeat split; try done.
  exists k. repeat split; try done. by apply list_elem_of_In.
Qed.

Lemma api_key_auth_sound_witness :
  Auth.get_current_user_from_api_key toy_sha256 "tk_alice" 77 sample_session
  = (Auth.Return alice, Auth.touch alice_key 77 sample_session) /\
  alice ∈ Auth.users sample_session /\
  Auth.user_is_active alice = true.
Proof.
  assert (Hrun :
    Auth.get_current_user_from_api_key toy_sha256 "tk_alice" 77 sample_session
    = (Auth.Return alice, Auth.touch alice_key 77 sample_session)).
  { vm_compute. reflexivity. }
  split; [exact Hrun |].
  destruct (api_key_auth_sound _ _ _ _ _ _ Hrun) as (_ & Hin & Hactive & _).
  split; [exact Hin | exact Hactive].
Defined.

(** X15: looking a key up writes nothing but [last_used_at]: the users and
    every other column of every key are as before, a refused format or an
    unknown key leaves the session untouched, and once an active key is
    found its [last_used_at] is set to the clock, even when the call then
    refuses the user as inactive. *)
Theorem api_key_auth_frame (sha256_hex : string -> string)
    (credentials : string) (utcnow : Z) (db : Auth.Session) :
  Auth.users (Auth.get_current_user_from_api_key sha256_hex credentials utcnow db).2
  = Auth.users db /\
  map forget_last_used
    (Auth.api_keys (Auth.get_current_user_from_api_key sha256_hex credentials utcnow db).2)
  = map forget_last_used (Auth.api_keys db) /\
  ((Auth.get_current_user_from_api_key sha256_hex credentials utcnow db).1
   = Auth.HTTPException 401 "Invalid API key format" \/
   (Auth.get_current_user_from_api_key sha256_hex credentials utcnow db).1
   = Auth.HTTPException 401 "Invalid API key" ->
   (Auth.get_current_user_from_api_key sha256_hex credentials utcnow db).2 = db) /\
  (forall k,
     String.prefix "tk_" credentials = true ->
     List.find (key_matches (sha256_hex credentials)) (Auth.api_keys db) = Some k ->
     Forall (fun k' => Auth.key_id k' = Auth.key_id k ->
                       Auth.key_last_used_at k' = Some utcnow)
       (Auth.api_keys
          (Auth.get_current_user_from_api_key sha256_hex credentials utcnow db).2)).
Proof.
  unfold Auth.get_current_user_from_api_key.
  fold (key_matches (sha256_hex credentials)).
  destruct (String.prefix "tk_" credentials); cbn [negb].
  2: { repeat split; done. }
  destruct (List.find _ (Auth.api_keys db)) as [k|] eqn:Hfind.
  2: { repeat split; done. }
  assert (Hsnd :
    (match Auth.user_by_id (Auth.touch k utcnow db) (Auth.key_user_id k) with
     | Some user =>
         if Auth.user_is_active user
         then (Auth.Return user, Auth.touch k utcnow db)
         else (Auth.HTTPException 401 "User account is inactive",
               Auth.touch k utcnow db)
     | None => (Auth.HTTPException 401 "User account is inactive",
                Auth.touch k utcnow db)
     end).2 = Auth.touch k utcnow db).
  { destruct (Auth.user_by_id _ _) as [user|]; [| done].
    by destruct (Auth.user_is_active user). }
  rewrite Hsnd. split; [done |]. split; [apply forget_touch |]. split.
  - destruct (Auth.user_by_id _ _) as [user|]; [| by intros [[=] | [=]]].
    destruct (Auth.user_is_active user); by intros [[=] | [=]].
  - intros k' _ [= <-]. apply touch_stamps.
Qed.

(** X16: the subscription gate lets through only an active user with an
    [ACTIVE] subscription, found through an active key. *)
Theorem subscriber_sound (sha256_hex : string -> string)
    (credentials : string) (utcnow : Z) (db : Auth.Session) (u : Auth.User)
    (db' : Auth.Session) :
  Auth.subscriber sha256_hex credentials utcnow db = (Auth.Return u, db') ->
  Auth.user_subscription_status u = Auth.ACTIVE /\
  Auth.user_is_active u = true /\
  u ∈ Auth.users db /\
  String.prefix "tk_" credentials = true.
Proof.
  unfold Auth.subscriber.
  destruct (Auth.get_current_user_from_api_key sha256_hex credentials utcnow db)
    as [[user| |] db1] eqn:Hauth; [| done | done].
  unfold Auth.require_active_subscription. case_decide as Hstatus; [| done].
  intros [= -> <-].
  apply api_key_auth_inv in Hauth as (Hprefix & k & _ & _ & Huser & Hactive).
  apply user_by_id_some in Huser as [Hu _]. done.
Qed.

Lemma subscriber_sound_witness :
  Auth.subscriber toy_sha256 "tk_alice" 77 sample_session
  = (Auth.Return alice, Auth.touch alice_key 77 sample_session) /\
  Auth.user_subscription_status alice = Auth.ACTIVE.
Proof.
  assert (Hrun :
    Auth.subscriber toy_sha256 "tk_alice" 77 sample_session
    = (Auth.Return alice, Auth.touch alice_key 77 sample_session)).
  { vm_compute. reflexivity. }
  split; [exact Hrun |].
  exact (proj1 (subscriber_sound _ _ _ _ _ _ Hrun)).
Defined.

Section AccountFacts.

Import Auth.

Implicit Types (db : Session) (u : User).

Lemma user_by_email_none db email :
  user_by_email db email = None -> email ∉ user_email <$> users db.
Proof.
  unfold user_by_email. intros Hnone Hin.
  apply list_elem_of_fmap in Hin as (u & -> & Hu).
  apply list_elem_of_In in Hu.
  pose proof (find_none _ _ Hnone u Hu) as Hneq. cbn in Hneq.
  by rewrite String.eqb_refl in Hneq.
Qed.

Lemma user_by_email_some db email u :
  user_by_email db email = Some u -> u ∈ users db /\ user_email u = email.
Proof.
  unfold user_by_email. intros [Hin Heq]%find_some.
  split; [by apply list_elem_of_In | by apply String.eqb_eq].
Qed.

Lemma before_prefix (sep : ascii) (s : string) :
  String.prefix (before sep s) s = true.
Proof.
  induction s as [|c s IH]; [done |].
  cbn [before]. destruct (Ascii.eqb c sep); [done |].
  cbn [String.prefix]. by destruct (ascii_dec c c).
Qed.

Lemma before_free (sep : ascii) (s : string) :
  Str.contains (String sep "") (before sep s) = false.
Proof.
  induction s as [|c s IH]; [done |].
  cbn [before]. destruct (Ascii.eqb_spec c sep) as [->|Hne]; [done |].
  cbn [Str.contains String.prefix].
  destruct (ascii_dec sep c) as [->|_]; [done |]. exact IH.
Qed.

(** [before] stops at the first separator, or takes the whole string. *)
Lemma before_split (sep : ascii) (s : string) :
  before sep s = s \/ exists rest : string, s = before sep s +:+ String sep rest.
Proof.
  induction s as [|c s IH]; [by left |].
  cbn [before]. destruct (Ascii.eqb_spec c sep) as [->|Hne].
  - right. exists s. by rewrite append_nil.
  - destruct IH as [IH | [rest IH]].
    + left. by rewrite IH.
    + right. exists rest. rewrite append_cons. by rewrite <- IH.
Qed.

End AccountFacts.

(** X17: registration keeps e-mail addresses unique: if no two users share an
    address before, none do after; a refused registration changes nothing,
    and the keys are never touched. *)
Theorem register_keeps_emails_unique (bcrypt_hash : string -> string -> string)
    (user_data : Auth.UserRegister) (salt : string) (row : Auth.Inserted)
    (db : Auth.Session) :
  NoDup (Auth.user_email <$> Auth.users db) ->
  NoDup (Auth.user_email
           <$> Auth.users (Auth.register bcrypt_hash user_data salt row db).2) /\
  Auth.api_keys (Auth.register bcrypt_hash user_data salt row db).2
  = Auth.api_keys db /\
  (forall status_code detail,
     (Auth.register bcrypt_hash user_data salt row db).1
     = Auth.HTTPException status_code detail ->
     status_code = 400 /\
     (Auth.register bcrypt_hash user_data salt row db).2 = db /\
     Auth.reg_email user_data ∈ Auth.user_email <$> Auth.users db).
Proof.
  intros Hnodup. unfold Auth.register.
  destruct (Auth.user_by_email db (Auth.reg_email user_data)) as [existing|] eqn:Hfind.
  - cbn [fst snd]. split; [done |]. split; [done |].
    intros status_code detail [= <- <-]. split; [done |]. split; [done |].
    apply user_by_email_some in Hfind as [Hin <-].
    by apply list_elem_of_fmap_2.
  - cbn [fst snd Auth.users Auth.api_keys]. split; [| split; [done | done]].
    rewrite fmap_app. apply NoDup_app. split; [done |]. split.
    + intros e He [->|?%elem_of_nil]%elem_of_cons; [| done].
      by apply (user_by_email_none db _ Hfind).
    + cbn. apply NoDup_singleton.
Qed.

Lemma register_keeps_emails_unique_witness :
  NoDup (Auth.user_email <$> Auth.users sample_session) /\
  NoDup (Auth.user_email
           <$> Auth.users
                 (Auth.register toy_bcrypt
                    {| Auth.reg_email := "carol@example.com";
                       Auth.reg_password := "secret";
                       Auth.reg_username := None |}
                    "salt"
                    {| Auth.new_id := 3; Auth.new_created_at := 5;
                       Auth.new_expires_at := None; Auth.new_last_used_at := None |}
                    sample_session).2).
Proof.
  assert (Hnodup : NoDup (Auth.user_email <$> Auth.users sample_session)).
  { cbn. repeat constructor; rewrite ?elem_of_cons, ?elem_of_nil; intuition discriminate. }
  split; [exact Hnodup |].
  exact (proj1 (register_keeps_emails_unique toy_bcrypt _ _ _ _ Hnodup)).
Defined.

(** X18: a registration with a fresh address succeeds and adds one user, who
    is active, without a subscription, and keeps the hash of the password; the
    username is the one given, and when none or an empty one is given it is
    what stands before the first ["@"] of the address: it holds no ["@"], and
    the address is either that name itself or the name, an ["@"] and a rest,
    which leaves one name only. *)
Theorem register_new_user (bcrypt_hash : string -> string -> string)
    (user_data : Auth.UserRegister) (salt : string) (row : Auth.Inserted)
    (db : Auth.Session) :
  Auth.user_by_email db (Auth.reg_email user_data) = None ->
  exists resp new_user name,
    Auth.register bcrypt_hash user_data salt row db
    = (Auth.Return resp,
       {| Auth.users := Auth.users db ++ [new_user];
          Auth.api_keys := Auth.api_keys db |}) /\
    Auth.user_email new_user = Auth.reg_email user_data /\
    Auth.user_is_active new_user = true /\
    Auth.user_subscription_status new_user = Auth.INACTIVE /\
    Auth.user_password_hash new_user
    = bcrypt_hash salt (Auth.reg_password user_data) /\
    Auth.user_username new_user = Some name /\
    Auth.resp_username resp = Some name /\
    (forall given, Auth.reg_username user_data = Some given -> given <> "" ->
                   name = given) /\
    (Auth.reg_username user_data = None \/ Auth.reg_username user_data = Some "" ->
     String.prefix name (Auth.reg_email user_data) = true /\
     Str.contains "@" name = false /\
     (name = Auth.reg_email user_data \/
      exists rest : string,
        Auth.reg_email user_data = name +:+ String "@" rest)).
Proof.
  intros Hfresh. unfold Auth.register. rewrite Hfresh.
  eexists _, _, (Auth.username_or_default user_data).
  split; [reflexivity |]. cbn.
  do 6 (split; [done |]). unfold Auth.username_or_default. split.
  - intros given -> Hne. apply String.eqb_neq in Hne. by rewrite Hne.
  - intros [-> | ->]; cbn;
      (split; [apply before_prefix |
               split; [apply (before_free "@") | apply before_split]]).
Qed.

Lemma register_new_user_witness :
  Auth.user_by_email sample_session "carol@example.com" = None /\
  exists resp new_user,
    Auth.register toy_bcrypt
      {| Auth.reg_email := "carol@example.com"; Auth.reg_password := "secret";
         Auth.reg_username := Some "" |}
      "salt"
      {| Auth.new_id := 3; Auth.new_created_at := 5;
         Auth.new_expires_at := None; Auth.new_last_used_at := None |}
      sample_session
    = (Auth.Return resp,
       {| Auth.users := Auth.users sample_session ++ [new_user];
          Auth.api_keys := Auth.api_keys sample_session |}) /\
    Auth.user_username new_user = Some "carol".
Proof.
  assert (Hfresh : Auth.user_by_email sample_session "carol@example.com" = None).
  { vm_compute. reflexivity. }
  split; [exact Hfresh |].
  destruct (register_new_user toy_bcrypt
              {| Auth.reg_email := "carol@example.com"; Auth.reg_password := "secret";
                 Auth.reg_username := Some "" |}
              "salt"
              {| Auth.new_id := 3; Auth.new_created_at := 5;
                 Auth.new_expires_at := None; Auth.new_last_used_at := None |}
              sample_session Hfresh)
    as (resp & new_user & name & Hrun & _ & _ & _ & _ & Hname & _).
  exists resp, new_user. split; [exact Hrun |].
  vm_compute in Hrun. injection Hrun as _ <-. reflexivity.
Defined.

(** X19: a login returns a token only for a user of the table whose
    password verifies and who is active; the token is a bearer token whose
    payload names that user as ["sub"] and expires thirty minutes after the
    clock reading. *)
Theorem login_token (verify_password : string -> string -> bool)
    (jwt_encode : gmap string pyval -> string)
    (user_credentials : Auth.UserLogin) (utcnow : Z) (db : Auth.Session)
    (token : Auth.Token) :
  Auth.login verify_password jwt_encode user_credentials utcnow db
  = Auth.Return token ->
  exists u,
    Auth.user_by_email db (Auth.login_email user_credentials) = Some u /\
    verify_password (Auth.login_password user_credentials)
                    (Auth.user_password_hash u) = true /\
    Auth.user_is_active u = true /\
    Auth.token_type token = "bearer" /\
    Auth.access_token token
    = jwt_encode (<["exp" := VDatetime (utcnow + Auth.minutes 30)]>
                    {[ "sub" := VStr (Auth.str_of_int (Auth.user_id u)) ]}).
Proof.
  unfold Auth.login.
  destruct (Auth.user_by_email db (Auth.login_email user_credentials)) as [u|];
    [| done].
  destruct (verify_password _ _) eqn:Hverify; cbn [negb]; [| done].
  destruct (Auth.user_is_active u) eqn:Hactive; cbn [negb]; [| done].
  intros [= <-]. by exists u.
Qed.

Lemma login_token_witness :
  Auth.login toy_verify toy_jwt_encode
    {| Auth.login_email := "alice@example.com"; Auth.login_password := "wonderland" |}
    100 sample_session
  = Auth.Return {| Auth.access_token := "jwt.1"; Auth.token_type := "bearer" |} /\
  exists u,
    Auth.user_by_email sample_session "alice@example.com" = Some u /\
    Auth.user_is_active u = true.
Proof.
  assert (Hrun :
    Auth.login toy_verify toy_jwt_encode
      {| Auth.login_email := "alice@example.com"; Auth.login_password := "wonderland" |}
      100 sample_session
    = Auth.Return {| Auth.access_token := "jwt.1"; Auth.token_type := "bearer" |}).
  { vm_compute. reflexivity. }
  split; [exact Hrun |].
  destruct (login_token _ _ _ _ _ _ Hrun) as (u & Hu & _ & Hactive & _).
  by exists u.
Defined.

(** X20: a login does not tell an unknown address from a wrong password:
    both get the same 401 reply; the reply "Account is inactive" is given
    only to a caller whose password verified. *)
Theorem login_refusals (verify_password : string -> string -> bool)
    (jwt_encode : gmap string pyval -> string)
    (user_credentials : Auth.UserLogin) (utcnow : Z) (db : Auth.Session) :
  (Auth.user_by_email db (Auth.login_email user_credentials) = None ->
   Auth.login verify_password jwt_encode user_credentials utcnow db
   = Auth.HTTPException 401 "Incorrect email or password") /\
  (forall u,
     Auth.user_by_email db (Auth.login_email user_credentials) = Some u ->
     verify_password (Auth.login_password user_credentials)
                     (Auth.user_password_hash u) = false ->
     Auth.login verify_password jwt_encode user_credentials utcnow db
     = Auth.HTTPException 401 "Incorrect email or password") /\
  (Auth.login verify_password jwt_encode user_credentials utcnow db
   = Auth.HTTPException 401 "Account is inactive" ->
   exists u,
     Auth.user_by_email db (Auth.login_email user_credentials) = Some u /\
     verify_password (Auth.login_password user_credentials)
                     (Auth.user_password_hash u) = true /\
     Auth.user_is_active u = false).
Proof.
  unfold Auth.login. split; [| split].
  - by intros ->.
  - by intros u -> ->.
  - destruct (Auth.user_by_email db (Auth.login_email user_credentials)) as [u|];
      [| done].
    destruct (verify_password _ _) eqn:Hverify; cbn [negb]; [| done].
    destruct (Auth.user_is_active u) eqn:Hactive; cbn [negb]; [done |].
    intros _. by exists u.
Qed.

Lemma datetime_add_some (d delta : Z) :
  Auth.datetime_min <= d + delta <= Auth.datetime_max ->
  Auth.datetime_add d delta = Some (d + delta).
Proof.
  intros [Hmin Hmax]. unfold Auth.datetime_add.
  destruct (Z.leb_spec Auth.datetime_min (d + delta)); [| lia].
  destruct (Z.leb_spec (d + delta) Auth.datetime_max); [done | lia].
Qed.

Lemma datetime_add_none (d delta : Z) :
  d + delta < Auth.datetime_min \/ Auth.datetime_max < d + delta ->
  Auth.datetime_add d delta = None.
Proof.
  intros Hout. unfold Auth.datetime_add.
  destruct (Z.leb_spec Auth.datetime_min (d + delta)); [| done].
  destruct (Z.leb_spec (d + delta) Auth.datetime_max); [lia | done].
Qed.

(** X21: [create_access_token] adds to the clock the delay given, or fifteen
    minutes when no delay is given and also when the delay is zero. When
    that expiry is within the range of [datetime], the token encodes the
    given claims with ["exp"] set to it, whatever ["exp"] they held; when it
    is outside, the call ends with an [OverflowError] and no token. An
    ["exp"] already in the data has no effect either way. *)
Theorem create_access_token_payload (jwt_encode : gmap string pyval -> string)
    (data : gmap string pyval) (expires_delta : option Z) (utcnow : Z) :
  (exists delay : Z,
     (forall delta, expires_delta = Some delta -> delta <> 0 -> delay = delta) /\
     (expires_delta = None \/ expires_delta = Some 0 ->
      delay = Auth.minutes 15) /\
     (Auth.datetime_min <= utcnow + delay <= Auth.datetime_max ->
      exists payload : gmap string pyval,
        Auth.create_access_token_reply jwt_encode data expires_delta utcnow
        = Auth.Return (jwt_encode payload) /\
        payload !! "exp" = Some (VDatetime (utcnow + delay)) /\
        (forall claim, claim <> "exp" -> payload !! claim = data !! claim) /\
        Auth.create_access_token jwt_encode data expires_delta utcnow
        = jwt_encode payload) /\
     (utcnow + delay < Auth.datetime_min \/ Auth.datetime_max < utcnow + delay ->
      Auth.create_access_token_reply jwt_encode data expires_delta utcnow
      = Auth.Uncaught "OverflowError")) /\
  (forall v,
     Auth.create_access_token_reply jwt_encode (<["exp" := v]> data)
       expires_delta utcnow
     = Auth.create_access_token_reply jwt_encode data expires_delta utcnow).
Proof.
  split.
  - exists (match expires_delta with
            | Some delta => if delta =? 0 then Auth.minutes 15 else delta
            | None => Auth.minutes 15
            end).
    split; [| split; [| split]].
    + intros delta -> Hdelta. by destruct (Z.eqb_spec delta 0).
    + by intros [-> | ->].
    + intros Hrange.
      exists (<["exp" := VDatetime
                 (utcnow + match expires_delta with
                           | Some delta => if delta =? 0 then Auth.minutes 15
                                           else delta
                           | None => Auth.minutes 15
                           end)]> data).
      split; [| split; [apply lookup_insert_eq | split]].
      * unfold Auth.create_access_token_reply.
        destruct expires_delta as [delta|]; [destruct (delta =? 0) |];
          by rewrite (datetime_add_some _ _ Hrange).
      * intros claim Hclaim. by apply lookup_insert_ne.
      * unfold Auth.create_access_token.
        by destruct expires_delta as [delta|]; [destruct (delta =? 0) |].
    + intros Hout. unfold Auth.create_access_token_reply.
      destruct expires_delta as [delta|]; [destruct (delta =? 0) |];
        by rewrite (datetime_add_none _ _ Hout).
  - intros v. unfold Auth.create_access_token_reply.
    destruct (match expires_delta with
              | Some delta => if delta =? 0 then Auth.datetime_add utcnow (Auth.minutes 15)
                              else Auth.datetime_add utcnow delta
              | None => Auth.datetime_add utcnow (Auth.minutes 15)
              end); [| done].
    by rewrite insert_insert_eq.
Qed.

(** A delay of ten thousand years from 2023 overflows; the thirty minutes
    of [login] do not. *)
Example create_access_token_overflow :
  Auth.create_access_token_reply toy_jwt_encode {[ "sub" := VStr "1" ]}
    (Some (Auth.minutes (10000 * 366 * 24 * 60))) sample_now
  = Auth.Uncaught "OverflowError" /\
  Auth.create_access_token_reply toy_jwt_encode {[ "sub" := VStr "1" ]}
    (Some (Auth.minutes 30)) sample_now
  = Auth.Return
      (Auth.create_access_token toy_jwt_encode {[ "sub" := VStr "1" ]}
         (Some (Auth.minutes 30)) sample_now).
Proof. split; vm_compute; reflexivity. Qed.

(** X22: the two ways in differ on inactive users: a JWT that names an
    inactive user is accepted, no activity check being made, while no API
    key is ever answered with an inactive user. *)
Theorem inactive_user_jwt_but_no_key
    (sha256_hex : string -> string)
    (jwt_decode : string -> option (gmap string pyval))
    (int_of_str : string -> option Z)
    (db : Auth.Session) (u : Auth.User) :
  Auth.user_is_active u = false ->
  (forall credentials payload sub,
     jwt_decode credentials = Some payload ->
     payload !! "sub" = Some (VStr sub) ->
     int_of_str sub = Some (Auth.user_id u) ->
     Auth.user_by_id db (Auth.user_id u) = Some u ->
     Auth.get_current_user jwt_decode int_of_str credentials db = Auth.Return u) /\
  (forall credentials utcnow,
     (Auth.get_current_user_from_api_key sha256_hex credentials utcnow db).1
     <> Auth.Return u).
Proof.
  intros Hinactive. split.
  - intros credentials payload sub Hdecode Hsub Hint Hfind.
    unfold Auth.get_current_user, dict_get. rewrite Hdecode, Hsub. cbn.
    by rewrite Hint, Hfind.
  - intros credentials utcnow Hrun.
    destruct (Auth.get_current_user_from_api_key sha256_hex credentials utcnow db)
      as [r db'] eqn:Hauth. cbn in Hrun. subst r.
    apply api_key_auth_inv in Hauth as (_ & k & _ & _ & _ & Hactive).
    congruence.
Qed.

Lemma inactive_user_jwt_but_no_key_witness :
  Auth.user_is_active bob = false /\
  Auth.get_current_user toy_jwt_decode toy_int_of_str "jwt.2" sample_session
  = Auth.Return bob /\
  (Auth.get_current_user_from_api_key toy_sha256 "tk_bob" 77 sample_session).1
  <> Auth.Return bob.
Proof.
  split; [reflexivity |].
  destruct (inactive_user_jwt_but_no_key toy_sha256 toy_jwt_decode toy_int_of_str
              sample_session bob eq_refl) as [Hjwt Hkey].
  split.
  - apply (Hjwt "jwt.2" {[ "sub" := VStr "2" ]} "2"); vm_compute; reflexivity.
  - apply Hkey.
Defined.

Section KeyFacts.

Import Auth.

Implicit Types (db : Session) (u : User) (k : APIKey) (keys : list APIKey).

Lemma filter_other_ids keys (id : Z) :
  id ∉ key_id <$> keys ->
  List.filter (fun k' => negb (key_id k' =? id)) keys = keys.
Proof.
  induction keys as [|x keys IH]; [done |].
  rewrite fmap_cons, not_elem_of_cons. intros [Hne Hrest].
  cbn [List.filter]. destruct (Z.eqb_spec (key_id x) id); [congruence |].
  cbn [negb]. by rewrite IH.
Qed.

(** With primary keys, deleting by id removes one row. *)
Lemma delete_by_id keys k :
  NoDup (key_id <$> keys) -> k ∈ keys ->
  keys ≡ₚ k :: List.filter (fun k' => negb (key_id k' =? key_id k)) keys.
Proof.
  induction keys as [|x keys IH]; [by intros _ ?%elem_of_nil |].
  rewrite fmap_cons, NoDup_cons. intros [Hx Hnodup] [-> | Hin]%elem_of_cons.
  - cbn [List.filter]. rewrite Z.eqb_refl. cbn [negb].
    by rewrite filter_other_ids.
  - cbn [List.filter]. destruct (Z.eqb_spec (key_id x) (key_id k)) as [Heq|Hne].
    + exfalso. apply Hx. rewrite Heq. by apply list_elem_of_fmap_2.
    + cbn [negb]. rewrite (IH Hnodup Hin) at 1. apply Permutation_swap.
Qed.

Lemma elem_of_list_filter_bool {A : Type} (f : A -> bool) (l : list A) (x : A) :
  x ∈ List.filter f l <-> x ∈ l /\ f x = true.
Proof. rewrite !list_elem_of_In. apply filter_In. Qed.

Lemma list_filter_sublist {A : Type} (f : A -> bool) (l : list A) :
  List.filter f l `sublist_of` l.
Proof.
  induction l as [|x l IH]; [done |].
  cbn [List.filter]. destruct (f x); [by apply sublist_skip | by apply sublist_cons].
Qed.

Lemma find_app_none {A : Type} (f : A -> bool) (l l' : list A) :
  List.find f l = None -> List.find f (l ++ l') = List.find f l'.
Proof.
  induction l as [|x l IH]; [done |].
  cbn [List.find app]. destruct (f x); [done | exact IH].
Qed.

Lemma prefix_append (a b : string) : String.prefix a (a +:+ b) = true.
Proof. apply prefix_spec. by exists b. Qed.

End KeyFacts.

(** X23: deleting a key touches only the caller's own keys: with key ids
    unique, the users and every key of another user stay, a refusal (404)
    changes nothing, and a success removes exactly one key, which carried the
    requested id and belonged to the caller. *)
Theorem delete_api_key_only_own (key : Z) (current_user : Auth.User)
    (db : Auth.Session) :
  NoDup (Auth.key_id <$> Auth.api_keys db) ->
  Auth.users (Auth.delete_api_key key current_user db).2 = Auth.users db /\
  (forall k, k ∈ Auth.api_keys db ->
             Auth.key_user_id k <> Auth.user_id current_user ->
             k ∈ Auth.api_keys (Auth.delete_api_key key current_user db).2) /\
  (forall status_code detail,
     (Auth.delete_api_key key current_user db).1
     = Auth.HTTPException status_code detail ->
     status_code = 404 /\ (Auth.delete_api_key key current_user db).2 = db) /\
  (forall message,
     (Auth.delete_api_key key current_user db).1 = Auth.Return message ->
     exists k,
       k ∈ Auth.api_keys db /\
       Auth.key_id k = key /\
       Auth.key_user_id k = Auth.user_id current_user /\
       Auth.api_keys db
       ≡ₚ k :: Auth.api_keys (Auth.delete_api_key key current_user db).2).
Proof.
  intros Hnodup. unfold Auth.delete_api_key.
  destruct (List.find _ (Auth.api_keys db)) as [k|] eqn:Hfind; cbn [fst snd].
  - apply find_some in Hfind as [Hin Hk]. apply list_elem_of_In in Hin.
    apply andb_true_iff in Hk as [Hid%Z.eqb_eq Howner%Z.eqb_eq].
    pose proof (delete_by_id _ k Hnodup Hin) as Hperm.
    split; [done |]. split; [| split; [done |]].
    + intros k' Hin' Hother. cbn [Auth.api_keys].
      apply elem_of_list_filter_bool. split; [done |].
      apply negb_true_iff, Z.eqb_neq. intros Hsame.
      assert (k' = k); [| congruence].
      rewrite Hperm in Hin'. apply elem_of_cons in Hin' as [-> | Hin']; [done |].
      apply elem_of_list_filter_bool in Hin' as [_ Hne].
      apply negb_true_iff, Z.eqb_neq in Hne. done.
    + intros message _. exists k. by cbn [Auth.api_keys].
  - split; [done |]. split; [done |]. split; [| done].
    by intros status_code detail [= <- <-].
Qed.

Lemma delete_api_key_only_own_witness :
  NoDup (Auth.key_id <$> Auth.api_keys sample_session) /\
  Auth.delete_api_key 11 alice sample_session
  = (Auth.HTTPException 404 "API key not found", sample_session) /\
  Auth.delete_api_key 10 alice sample_session
  = (Auth.Return "API key deleted successfully",
     {| Auth.users := [alice; bob]; Auth.api_keys := [bob_key] |}) /\
  bob_key ∈ Auth.api_keys (Auth.delete_api_key 10 alice sample_session).2.
Proof.
  assert (Hnodup : NoDup (Auth.key_id <$> Auth.api_keys sample_session)).
  { cbn. repeat constructor; rewrite ?elem_of_cons, ?elem_of_nil; intuition discriminate. }
  split; [exact Hnodup |].
  split; [vm_compute; reflexivity |]. split; [vm_compute; reflexivity |].
  destruct (delete_api_key_only_own 10 alice sample_session Hnodup)
    as (_ & Hothers & _).
  apply Hothers.
  - apply list_elem_of_further, list_elem_of_here.
  - discriminate.
Defined.

(** X24: a key just created authenticates its owner: for an active user
    found under their id, and when no active key of the table already has the
    hash of the new one, presenting the key that [create_api_key] returned is
    answered with that user. *)
Theorem create_then_authenticate (sha256_hex : string -> string)
    (name token : string) (row : Auth.Inserted) (current_user : Auth.User)
    (db : Auth.Session) (utcnow : Z) :
  Auth.user_by_id db (Auth.user_id current_user) = Some current_user ->
  Auth.user_is_active current_user = true ->
  List.find (key_matches (sha256_hex ("tk_" +:+ token))) (Auth.api_keys db) = None ->
  (Auth.get_current_user_from_api_key sha256_hex
     (Auth.created_key (Auth.create_api_key sha256_hex name token row current_user db).1)
     utcnow
     (Auth.create_api_key sha256_hex name token row current_user db).2).1
  = Auth.Return current_user.
Proof.
  intros Huser Hactive Hfresh.
  unfold Auth.create_api_key, Auth.generate_api_key. cbn [fst snd Auth.created_key].
  unfold Auth.get_current_user_from_api_key.
  rewrite prefix_append. cbn [negb Auth.api_keys].
  fold (key_matches (sha256_hex ("tk_" +:+ token))).
  rewrite (find_app_none _ _ _ Hfresh). cbn [List.find].
  unfold key_matches at 1. cbn [Auth.key_hash Auth.key_is_active].
  rewrite String.eqb_refl. cbn [andb].
  rewrite user_by_id_touch. cbn [Auth.key_user_id].
  unfold Auth.user_by_id in *. cbn [Auth.users]. by rewrite Huser, Hactive.
Qed.

Lemma create_then_authenticate_witness :
  Auth.user_by_id sample_session (Auth.user_id alice) = Some alice /\
  Auth.user_is_active alice = true /\
  List.find (key_matches (toy_sha256 ("tk_" +:+ "fresh")))
            (Auth.api_keys sample_session) = None /\
  (Auth.get_current_user_from_api_key toy_sha256
     (Auth.created_key
        (Auth.create_api_key toy_sha256 "phone" "fresh"
           {| Auth.new_id := 12; Auth.new_created_at := 50;
              Auth.new_expires_at := None; Auth.new_last_used_at := None |}
           alice sample_session).1)
     60
     (Auth.create_api_key toy_sha256 "phone" "fresh"
        {| Auth.new_id := 12; Auth.new_created_at := 50;
           Auth.new_expires_at := None; Auth.new_last_used_at := None |}
        alice sample_session).2).1
  = Auth.Return alice.
Proof.
  split; [reflexivity |]. split; [reflexivity |].
  split; [vm_compute; reflexivity |].
  apply create_then_authenticate; [reflexivity | reflexivity | vm_compute; reflexivity].
Defined.

(** X25: a deleted key no longer authenticates: after a successful deletion,
    credentials whose hash only the deleted key carried are refused with a
    401, at any later time. *)
Theorem delete_then_authenticate_fails (sha256_hex : string -> string)
    (key : Z) (current_user : Auth.User) (db : Auth.Session)
    (credentials message : string) (utcnow : Z) :
  (Auth.delete_api_key key current_user db).1 = Auth.Return message ->
  (forall k, k ∈ Auth.api_keys db ->
             Auth.key_hash k = sha256_hex credentials -> Auth.key_id k = key) ->
  exists detail,
    Auth.get_current_user_from_api_key sha256_hex credentials utcnow
      (Auth.delete_api_key key current_user db).2
    = (Auth.HTTPException 401 detail, (Auth.delete_api_key key current_user db).2).
Proof.
  unfold Auth.delete_api_key.
  destruct (List.find _ (Auth.api_keys db)) as [k|] eqn:Hfind; cbn [fst snd]; [| done].
  intros _ Honly.
  apply find_some in Hfind as [_ Hk].
  apply andb_true_iff in Hk as [Hid%Z.eqb_eq _].
  unfold Auth.get_current_user_from_api_key.
  destruct (String.prefix "tk_" credentials); cbn [negb]; [| by eexists].
  cbn [Auth.api_keys].
  destruct (List.find _ (List.filter _ (Auth.api_keys db))) as [k'|] eqn:Hfind';
    [| by eexists].
  exfalso. apply find_some in Hfind' as [Hin' Hk'].
  apply list_elem_of_In, elem_of_list_filter_bool in Hin' as [Hin' Hne].
  apply negb_true_iff, Z.eqb_neq in Hne.
  apply andb_true_iff in Hk' as [Hhash%String.eqb_eq _].
  apply Hne. rewrite Hid. by apply Honly.
Qed.

Lemma delete_then_authenticate_fails_witness :
  (Auth.delete_api_key 10 alice sample_session).1
  = Auth.Return "API key deleted successfully" /\
  Auth.get_current_user_from_api_key toy_sha256 "tk_alice" 90
    (Auth.delete_api_key 10 alice sample_session).2
  = (Auth.HTTPException 401 "Invalid API key",
     (Auth.delete_api_key 10 alice sample_session).2).
Proof.
  assert (Hdel : (Auth.delete_api_key 10 alice sample_session).1
                 = Auth.Return "API key deleted successfully").
  { vm_compute. reflexivity. }
  split; [exact Hdel |].
  destruct (delete_then_authenticate_fails toy_sha256 10 alice sample_session
              "tk_alice" _ 90 Hdel) as [detail Hrun].
  - intros k Hin Hhash.
    apply elem_of_cons in Hin as [-> | Hin]; [reflexivity |].
    apply elem_of_cons in Hin as [-> | Hin%elem_of_nil]; [| done].
    vm_compute in Hhash. discriminate.
  - rewrite Hrun. vm_compute in Hrun. injection Hrun as <-. reflexivity.
Defined.

(** X26: a user who has just registered can log in: when the address is
    fresh and the password library verifies the hash it made, a login with
    the same address and password on the session the registration left
    returns a token whose ["sub"] is the id the database gave the user. *)
Theorem register_then_login (bcrypt_hash : string -> string -> string)
    (verify_password : string -> string -> bool)
    (jwt_encode : gmap string pyval -> string)
    (user_data : Auth.UserRegister) (salt : string) (row : Auth.Inserted)
    (db : Auth.Session) (utcnow : Z) :
  Auth.user_by_email db (Auth.reg_email user_data) = None ->
  verify_password (Auth.reg_password user_data)
                  (bcrypt_hash salt (Auth.reg_password user_data)) = true ->
  Auth.login verify_password jwt_encode
    {| Auth.login_email := Auth.reg_email user_data;
       Auth.login_password := Auth.reg_password user_data |}
    utcnow (Auth.register bcrypt_hash user_data salt row db).2
  = Auth.Return
      {| Auth.access_token :=
           jwt_encode (<["exp" := VDatetime (utcnow + Auth.minutes 30)]>
                         {[ "sub" := VStr (Auth.str_of_int (Auth.new_id row)) ]});
         Auth.token_type := "bearer" |}.
Proof.
  intros Hfresh Hverify. unfold Auth.register. rewrite Hfresh. cbn [snd].
  unfold Auth.login, Auth.user_by_email in *.
  cbn [Auth.users Auth.login_email Auth.login_password].
  rewrite (find_app_none _ _ _ Hfresh). cbn [List.find Auth.user_email].
  rewrite String.eqb_refl.
  cbn [Auth.user_password_hash Auth.user_is_active Auth.user_id].
  unfold Auth.hash_password. by rewrite Hverify.
Qed.

Lemma register_then_login_witness :
  Auth.user_by_email sample_session "carol@example.com" = None /\
  toy_verify "secret" (toy_bcrypt "salt" "secret") = true /\
  Auth.login toy_verify toy_jwt_encode
    {| Auth.login_email := "carol@example.com"; Auth.login_password := "secret" |}
    100
    (Auth.register toy_bcrypt
       {| Auth.reg_email := "carol@example.com"; Auth.reg_password := "secret";
          Auth.reg_username := None |}
       "salt"
       {| Auth.new_id := 3; Auth.new_created_at := 5;
          Auth.new_expires_at := None; Auth.new_last_used_at := None |}
       sample_session).2
  = Auth.Return {| Auth.access_token := "jwt.3"; Auth.token_type := "bearer" |}.
Proof.
  split; [vm_compute; reflexivity |]. split; [vm_compute; reflexivity |].
  rewrite (register_then_login toy_bcrypt toy_verify toy_jwt_encode
             {| Auth.reg_email := "carol@example.com"; Auth.reg_password := "secret";
                Auth.reg_username := None |}
             "salt" _ sample_session 100);
    vm_compute; reflexivity.
Defined.

(** X27: the token of a login is accepted afterwards: for an active user
    whose password verifies and who is found under their id, when the JWT
    library hands the ["sub"] of the token back and [int] reads the printed
    id, [get_current_user] answers the token with that user. *)
Theorem login_then_get_current_user
    (verify_password : string -> string -> bool)
    (jwt_encode : gmap string pyval -> string)
    (jwt_decode : string -> option (gmap string pyval))
    (int_of_str : string -> option Z)
    (user_credentials : Auth.UserLogin) (utcnow : Z) (db : Auth.Session)
    (u : Auth.User) (payload : gmap string pyval) :
  Auth.user_by_email db (Auth.login_email user_credentials) = Some u ->
  verify_password (Auth.login_password user_credentials)
                  (Auth.user_password_hash u) = true ->
  Auth.user_is_active u = true ->
  Auth.user_by_id db (Auth.user_id u) = Some u ->
  jwt_decode
    (jwt_encode (<["exp" := VDatetime (utcnow + Auth.minutes 30)]>
                   {[ "sub" := VStr (Auth.str_of_int (Auth.user_id u)) ]}))
  = Some payload ->
  payload !! "sub" = Some (VStr (Auth.str_of_int (Auth.user_id u))) ->
  int_of_str (Auth.str_of_int (Auth.user_id u)) = Some (Auth.user_id u) ->
  exists token,
    Auth.login verify_password jwt_encode user_credentials utcnow db
    = Auth.Return token /\
    Auth.get_current_user jwt_decode int_of_str (Auth.access_token token) db
    = Auth.Return u.
Proof.
  intros Hemail Hverify Hactive Hid Hdecode Hsub Hint.
  unfold Auth.login. rewrite Hemail, Hverify, Hactive. cbn [negb].
  eexists. split; [reflexivity |]. cbn [Auth.access_token].
  unfold Auth.get_current_user, Auth.create_access_token, dict_get.
  change (Auth.minutes Auth.ACCESS_TOKEN_EXPIRE_MINUTES =? 0) with false.
  cbn iota. change (Auth.minutes Auth.ACCESS_TOKEN_EXPIRE_MINUTES)
    with (Auth.minutes 30).
  rewrite Hdecode, Hsub. cbv beta iota delta [default from_option id Auth.py_int].
  by rewrite Hint, Hid.
Qed.

Lemma login_then_get_current_user_witness :
  exists token,
    Auth.login toy_verify toy_jwt_encode
      {| Auth.login_email := "alice@example.com";
         Auth.login_password := "wonderland" |}
      100 sample_session
    = Auth.Return token /\
    Auth.get_current_user toy_jwt_decode toy_int_of_str
      (Auth.access_token token) sample_session
    = Auth.Return alice.
Proof.
  apply (login_then_get_current_user toy_verify toy_jwt_encode toy_jwt_decode
           toy_int_of_str _ 100 sample_session alice {[ "sub" := VStr "1" ]});
    vm_compute; reflexivity.
Defined.
